(** * provider/aws/session.go: building AWS SDK handles from the
      external-dns configuration.

    The development embeds [newSession], [newV2Config],
    [CreateDefaultSession], [CreateDefaultV2Config] and [CreateSessions]
    together with the small part of the Go runtime and of the two AWS SDK
    generations that these functions touch: the setters they call are
    modelled as record updates, the two SDK loaders as an oracle that
    either fails or hands back the defaults it resolved. *)

From stdpp Require Import base option list strings gmap fin_maps.
From Stdlib Require Import ZArith Ascii.

Set Warnings "-register-all,-clear-no-such-hyp".

(** ** Go's [strings] package, as far as the path processor uses it *)

Module GoStrings.

(** [strings.Split(s, sep)] for a separator of exactly one byte [sep]:
    the pieces of [s] between the occurrences of [sep], in order.  The
    empty input gives the one-element slice holding the empty string. *)
Fixpoint Split (s : string) (sep : ascii) : list string :=
  match s with
  | EmptyString => [EmptyString]
  | String c rest =>
      if Ascii.eqb c sep then EmptyString :: Split rest sep
      else match Split rest sep with
           | [] => [String c EmptyString]
           | part :: parts => String c part :: parts
           end
  end.

(** [strings.Contains(s, string(c))]. *)
Fixpoint ContainsByte (s : string) (c : ascii) : bool :=
  match s with
  | EmptyString => false
  | String d rest => Ascii.eqb d c || ContainsByte rest c
  end.

(** [strings.Join(parts, string(sep))]. *)
Fixpoint Join (parts : list string) (sep : ascii) : string :=
  match parts with
  | [] => EmptyString
  | [part] => part
  | part :: parts => part +:+ String sep (Join parts sep)
  end.

End GoStrings.

(** The one byte of the literal ["/"]. *)
Definition slash : ascii := "/"%char.

(** ** [error] values and [fmt.Errorf] with the [%w] verb *)

(** An [error] is either a value the SDK produced or a [*fmt.wrapError],
    which stores its formatted message next to the error it wraps. *)
Inductive error : Type :=
| sdkError (msg : string)
| wrapError (msg : string) (err : error).

Definition Error (e : error) : string :=
  match e with
  | sdkError msg => msg
  | wrapError msg _ => msg
  end.

Definition Unwrap (e : error) : option error :=
  match e with
  | sdkError _ => None
  | wrapError _ err => Some err
  end.

(** [fmt.Errorf(prefix + "%w", err)]: the message is the prefix followed
    by [err.Error()], and [err] is kept for [errors.Unwrap]. *)
Definition Errorf_w (prefix : string) (err : error) : error :=
  wrapError (prefix +:+ Error err) err.

(** ** [logrus] and the process *)

Inductive Level : Type := InfoLevel | FatalLevel.

Record Entry : Type := mkEntry { level : Level; message : string }.

(** What the functions of this file can observe and change outside their
    results: the lines logged so far and the number of legacy sessions
    allocated so far (the next [*session.Session] gets that number as its
    address). *)
Record World : Type := mkWorld { logs : list Entry; allocated : nat }.

(** A top-level entry point either returns to its caller or ends the
    process ([logrus.Fatal] logs and then calls [os.Exit(1)]). *)
Inductive Outcome (A : Type) : Type :=
| Returned (a : A) (w : World)
| Exited (code : Z) (w : World).
Arguments Returned {A} a w.
Arguments Exited {A} code w.

Module logrus.

(** [logrus.Infof(format, args...)], the message already formatted. *)
Definition Info (msg : string) (w : World) : World :=
  mkWorld (logs w ++ [mkEntry InfoLevel msg]) (allocated w).

(** [logrus.Fatal(err)]: one entry at fatal level holding [err.Error()],
    then exit status 1. *)
Definition Fatal {A : Type} (err : error) (w : World) : Outcome A :=
  Exited 1%Z (mkWorld (logs w ++ [mkEntry FatalLevel (Error err)]) (allocated w)).

End logrus.

(** ** [net/http] and [instrumented_http] *)

Record Callbacks : Type := mkCallbacks {
  (** [None] stands for a panic of the callback. *)
  PathProcessor : string -> option string
}.

(** An [*http.Client]: the zero client [&http.Client{}], or the client
    [instrumented_http.NewClient(next, cbs)] returns, which keeps [next]
    (a pointer, possibly nil) and the callbacks. *)
Inductive http_Client : Type :=
| http_Client_zero
| instrumented (next : option http_Client) (cbs : Callbacks).

Module instrumented_http.
Definition NewClient (next : option http_Client) (cbs : Callbacks) : http_Client :=
  instrumented next cbs.
End instrumented_http.

(** ** The legacy SDK generation (aws-sdk-go) *)

Module aws.

(** The fields of [aws.Config] this file sets or reads; each is a pointer
    or an interface in Go and may be nil.  The type of the credentials is
    a parameter because a credentials value holds an STS client, which
    holds a copy of a configuration. *)
Record Config_ (C : Type) : Type := mkConfig {
  MaxRetries : option Z;
  HTTPClient : option http_Client;
  Credentials : option C
}.
Arguments mkConfig {C} _ _ _.
Arguments MaxRetries {C} _.
Arguments HTTPClient {C} _.
Arguments Credentials {C} _.

(** [aws.NewConfig()]: every field nil. *)
Definition NewConfig {C : Type} : Config_ C := mkConfig None None None.

(** [c.WithMaxRetries(max)] *)
Definition WithMaxRetries {C : Type} (c : Config_ C) (max : Z) : Config_ C :=
  mkConfig (Some max) (HTTPClient c) (Credentials c).

(** [c.WithHTTPClient(client)] *)
Definition WithHTTPClient {C : Type} (c : Config_ C) (client : http_Client) : Config_ C :=
  mkConfig (MaxRetries c) (Some client) (Credentials c).

(** [c.WithCredentials(creds)] *)
Definition WithCredentials {C : Type} (c : Config_ C) (creds : C) : Config_ C :=
  mkConfig (MaxRetries c) (HTTPClient c) (Some creds).

(** [dst.MergeIn(other)]: every field of [other] that is not nil
    replaces the field of [dst]. *)
Definition MergeIn {C : Type} (dst other : Config_ C) : Config_ C :=
  mkConfig
    (match MaxRetries other with Some n => Some n | None => MaxRetries dst end)
    (match HTTPClient other with Some h => Some h | None => HTTPClient dst end)
    (match Credentials other with Some c => Some c | None => Credentials dst end).

End aws.

Module stscreds.

(** [stscreds.AssumeRoleProvider]: the STS client it calls (built from a
    copy of the configuration of the provider it was given), the role and
    the optional external ID (a [*string]). *)
Record AssumeRoleProvider_ (C : Type) : Type := mkAssumeRoleProvider {
  Client : aws.Config_ C;
  RoleARN : string;
  ExternalID : option string
}.
Arguments mkAssumeRoleProvider {C} _ _ _.
Arguments Client {C} _.
Arguments RoleARN {C} _.
Arguments ExternalID {C} _.

End stscreds.

Module credentials.

(** A [*credentials.Credentials]: what the SDK's own chain resolved (named
    by the SDK, opaque here), or the value [credentials.NewCredentials(p)]
    built around an assume-role provider. *)
Inductive Credentials : Type :=
| sdkResolved (source : string)
| NewCredentials (p : stscreds.AssumeRoleProvider_ Credentials).

End credentials.

Module request.
(** A handler of the Build list: one the SDK installed itself, or the one
    [request.MakeAddToUserAgentHandler(name, version)] makes. *)
Inductive Handler : Type :=
| sdkHandler (name : string)
| AddToUserAgentHandler (name version : string).

Definition MakeAddToUserAgentHandler (name version : string) : Handler :=
  AddToUserAgentHandler name version.
End request.

Module session.

Inductive SharedConfigState : Type :=
| SharedConfigStateFromEnv
| SharedConfigDisable
| SharedConfigEnable.

Record Options : Type := mkOptions {
  Options_Config : aws.Config_ credentials.Credentials;
  Options_SharedConfigState : SharedConfigState;
  Options_Profile : string
}.

(** What [session.NewSessionWithOptions] resolves on its own when it
    succeeds: the default configuration (with the credentials of the
    default chain for the profile) and the default Build handlers. *)
Record Defaults : Type := mkDefaults {
  defaultConfig : aws.Config_ credentials.Credentials;
  defaultBuild : list request.Handler
}.

(** A [*session.Session]: its address and the two fields this file
    touches, [Config] and [Handlers.Build]. *)
Record Session : Type := mkSession {
  addr : nat;
  Config : aws.Config_ credentials.Credentials;
  Handlers_Build : list request.Handler
}.

End session.

(** [stscreds.NewCredentials(c, roleARN, options...)] of the legacy SDK:
    the provider starts with an STS client made from [c] (the session,
    whose configuration is copied as it is at the call) and the role, the
    option functions are applied in order, and the result is wrapped by
    [credentials.NewCredentials]. *)
Definition stscreds_NewCredentials (c : session.Session) (roleARN : string)
    (options : list (stscreds.AssumeRoleProvider_ credentials.Credentials ->
                     stscreds.AssumeRoleProvider_ credentials.Credentials))
    : credentials.Credentials :=
  let p := stscreds.mkAssumeRoleProvider (session.Config c) roleARN None in
  credentials.NewCredentials (fold_left (fun p option => option p) options p).

(** ** The newer SDK generation (aws-sdk-go-v2) *)

Module retry.

(** An [aws.Retryer]: the standard one, or a retryer wrapped by
    [AddWithMaxAttempts], whose [MaxAttempts()] answers the wrapper's
    [Max] whatever the wrapped retryer says. *)
Inductive Retryer : Type :=
| Standard
| withMaxAttempts (r : Retryer) (Max : Z).

Definition NewStandard : Retryer := Standard.

Definition AddWithMaxAttempts (r : Retryer) (max : Z) : Retryer :=
  withMaxAttempts r max.

Definition DefaultMaxAttempts : Z := 3.

Definition MaxAttempts (r : Retryer) : Z :=
  match r with
  | Standard => DefaultMaxAttempts
  | withMaxAttempts _ Max => Max
  end.

End retry.

Module awsv2.

(** The fields of the v2 [aws.Config] this file sets or reads.  [Retryer]
    is a function returning a retryer, [HTTPClient] and [Credentials] are
    interfaces; all three may be nil, and all are nil in [Config{}]. *)
Record Config_ (P : Type) : Type := mkConfig {
  Retryer : option (unit -> retry.Retryer);
  HTTPClient : option http_Client;
  Credentials : option P
}.
Arguments mkConfig {P} _ _ _.
Arguments Retryer {P} _.
Arguments HTTPClient {P} _.
Arguments Credentials {P} _.

Definition zero {P : Type} : Config_ P := mkConfig None None None.

End awsv2.

Module stscredsv2.

(** [stscreds.AssumeRoleOptions] of the v2 SDK; [Client] is the STS
    client, which holds a copy of the configuration it was made from. *)
Record AssumeRoleOptions_ (P : Type) : Type := mkAssumeRoleOptions {
  Client : awsv2.Config_ P;
  RoleARN : string;
  ExternalID : option string
}.
Arguments mkAssumeRoleOptions {P} _ _ _.
Arguments Client {P} _.
Arguments RoleARN {P} _.
Arguments ExternalID {P} _.

(** A v2 [aws.CredentialsProvider]: what the SDK's default chain
    resolved (opaque), an [*AssumeRoleProvider] with its options, or an
    [*aws.CredentialsCache] around a provider. *)
Inductive CredentialsProvider : Type :=
| sdkResolved (source : string)
| AssumeRoleProvider (options : AssumeRoleOptions_ CredentialsProvider)
| CredentialsCache (provider : CredentialsProvider).

(** [stscreds.NewAssumeRoleProvider(client, roleARN, optFns...)] *)
Definition NewAssumeRoleProvider (client : awsv2.Config_ CredentialsProvider)
    (roleARN : string)
    (optFns : list (AssumeRoleOptions_ CredentialsProvider ->
                    AssumeRoleOptions_ CredentialsProvider))
    : CredentialsProvider :=
  let o := mkAssumeRoleOptions client roleARN None in
  AssumeRoleProvider (fold_left (fun o fn => fn o) optFns o).

End stscredsv2.

Module sts.
(** [sts.NewFromConfig(cfg)]: the client keeps a copy of [cfg]. *)
Definition NewFromConfig (cfg : awsv2.Config_ stscredsv2.CredentialsProvider)
    : awsv2.Config_ stscredsv2.CredentialsProvider := cfg.
End sts.

Module config.

Record LoadOptions : Type := mkLoadOptions {
  Retryer : option (unit -> retry.Retryer);
  HTTPClient : option http_Client;
  SharedConfigProfile : string
}.

Definition LoadOptions_zero : LoadOptions := mkLoadOptions None None "".

(** The three option functions the file uses; each one sets one field. *)
Definition WithRetryer (v : unit -> retry.Retryer) (o : LoadOptions) : LoadOptions :=
  mkLoadOptions (Some v) (HTTPClient o) (SharedConfigProfile o).

Definition WithHTTPClient (v : http_Client) (o : LoadOptions) : LoadOptions :=
  mkLoadOptions (Retryer o) (Some v) (SharedConfigProfile o).

Definition WithSharedConfigProfile (v : string) (o : LoadOptions) : LoadOptions :=
  mkLoadOptions (Retryer o) (HTTPClient o) v.

End config.

(** ** The SDK loaders *)

(** What the file cannot decide: whether the SDK manages to assemble its
    base configuration for the options it is given (shared configuration
    files, environment), and what it resolves when it does.  [inr err] is
    the SDK's failure. *)
Record SDK : Type := mkSDK {
  sessionDefaults : session.Options -> session.Defaults + error;
  configDefaults : config.LoadOptions ->
                   awsv2.Config_ stscredsv2.CredentialsProvider + error
}.

(** ** Package [externaldns]: the fields of [Config] the file reads *)

Module externaldns.
Record Config : Type := mkConfig {
  AWSAssumeRole : string;
  AWSAssumeRoleExternalID : string;
  AWSAPIRetries : Z;
  AWSProfiles : list string
}.
End externaldns.

(** ** Package [aws] of external-dns: session.go *)

(** [s[i]] on a Go slice; [None] is the run-time panic for an index out
    of range. *)
Definition index {A : Type} (s : list A) (i : Z) : option A :=
  if (i <? 0)%Z then None else s !! Z.to_nat i.

(** [len(s)] *)
Definition len {A : Type} (s : list A) : Z := Z.of_nat (List.length s).

(** AWSSessionConfig contains configuration to create a new AWS provider. *)
Record AWSSessionConfig : Type := mkAWSSessionConfig {
  AssumeRole : string;
  AssumeRoleExternalID : string;
  APIRetries : Z;
  Profile : string
}.

Abbreviation v1Config := (aws.Config_ credentials.Credentials).
Abbreviation v1Provider := (stscreds.AssumeRoleProvider_ credentials.Credentials).
Abbreviation v2Config := (awsv2.Config_ stscredsv2.CredentialsProvider).
Abbreviation v2Options := (stscredsv2.AssumeRoleOptions_ stscredsv2.CredentialsProvider).

Section Package.

(** Declared elsewhere in the package (aws.go) and in package
    [externaldns]; their values do not matter to this file. *)
Variable defaultAWSProfile : string.
Variable Version : string.

Variable sdk : SDK.

(** [session.NewSessionWithOptions(opts)]: on success a new session is
    allocated, whose configuration is the SDK's defaults with the caller's
    configuration merged in. *)
Definition NewSessionWithOptions (opts : session.Options) (w : World)
    : (session.Session + error) * World :=
  match sessionDefaults sdk opts with
  | inr err => (inr err, w)
  | inl d =>
      (inl (session.mkSession (allocated w)
              (aws.MergeIn (session.defaultConfig d) (session.Options_Config opts))
              (session.defaultBuild d)),
       mkWorld (logs w) (S (allocated w)))
  end.

(** [config.LoadDefaultConfig(ctx, optFns...)]: the option functions are
    applied in order to empty load options; on success the retryer and the
    HTTP client of the options, when set, replace the SDK's own. *)
Definition LoadDefaultConfig (optFns : list (config.LoadOptions -> config.LoadOptions))
    : v2Config + error :=
  let o := fold_left (fun o fn => fn o) optFns config.LoadOptions_zero in
  match configDefaults sdk o with
  | inr err => inr err
  | inl d =>
      inl (awsv2.mkConfig
             (match config.Retryer o with Some r => Some r | None => awsv2.Retryer d end)
             (match config.HTTPClient o with Some h => Some h | None => awsv2.HTTPClient d end)
             (awsv2.Credentials d))
  end.

(** The [PathProcessor] closure of [newSession]. *)
Definition newSession_PathProcessor (path : string) : option string :=
  let parts := GoStrings.Split path slash in
  index parts (len parts - 1).

(** The [PathProcessor] closure of [newV2Config]. *)
Definition newV2Config_PathProcessor (path : string) : option string :=
  let parts := GoStrings.Split path slash in
  index parts (len parts - 1).

(** [session.Config.WithCredentials(creds)]: [session.Config] is a
    pointer, so the session's own configuration changes. *)
Definition session_WithCredentials (s : session.Session) (creds : credentials.Credentials)
    : session.Session :=
  session.mkSession (session.addr s)
    (aws.WithCredentials (session.Config s) creds)
    (session.Handlers_Build s).

(** [session.Handlers.Build.PushBack(h)] *)
Definition session_Build_PushBack (s : session.Session) (h : request.Handler)
    : session.Session :=
  session.mkSession (session.addr s) (session.Config s)
    (session.Handlers_Build s ++ [h]).

Definition newSession (awsConfig : AWSSessionConfig) (w : World)
    : (option session.Session * option error) * World :=
  let config : v1Config := aws.WithMaxRetries aws.NewConfig (APIRetries awsConfig) in
  let config :=
    aws.WithHTTPClient config
      (instrumented_http.NewClient (aws.HTTPClient config)
         (mkCallbacks newSession_PathProcessor)) in
  match NewSessionWithOptions
          (session.mkOptions config session.SharedConfigEnable (Profile awsConfig)) w with
  | (inr err, w) =>
      ((None, Some (Errorf_w "instantiating AWS session: " err)), w)
  | (inl session, w) =>
      let '(session, w) :=
        if negb (String.eqb (AssumeRole awsConfig) "") then
          if negb (String.eqb (AssumeRoleExternalID awsConfig) "") then
            let w := logrus.Info ("Assuming role: " +:+ AssumeRole awsConfig
                                  +:+ " with external id "
                                  +:+ AssumeRoleExternalID awsConfig) w in
            (session_WithCredentials session
               (stscreds_NewCredentials session (AssumeRole awsConfig)
                  [fun p : v1Provider =>
                     stscreds.mkAssumeRoleProvider (stscreds.Client p) (stscreds.RoleARN p)
                       (Some (AssumeRoleExternalID awsConfig))]), w)
          else
            let w := logrus.Info ("Assuming role: " +:+ AssumeRole awsConfig) w in
            (session_WithCredentials session
               (stscreds_NewCredentials session (AssumeRole awsConfig) []), w)
        else (session, w) in
      let session :=
        session_Build_PushBack session
          (request.MakeAddToUserAgentHandler "ExternalDNS" Version) in
      ((Some session, None), w)
  end.

Definition newV2Config (awsConfig : AWSSessionConfig) (w : World)
    : (v2Config * option error) * World :=
  let defaultOpts :=
    [ config.WithRetryer
        (fun _ : unit => retry.AddWithMaxAttempts retry.NewStandard (APIRetries awsConfig));
      config.WithHTTPClient
        (instrumented_http.NewClient (Some http_Client_zero)
           (mkCallbacks newV2Config_PathProcessor));
      config.WithSharedConfigProfile (Profile awsConfig) ] in
  match LoadDefaultConfig defaultOpts with
  | inr err =>
      ((awsv2.zero, Some (Errorf_w "instantiating AWS config: " err)), w)
  | inl cfg =>
      if negb (String.eqb (AssumeRole awsConfig) "") then
        let stsSvc := sts.NewFromConfig cfg in
        let '(assumeRoleOpts, w) :=
          if negb (String.eqb (AssumeRoleExternalID awsConfig) "") then
            let w := logrus.Info ("Assuming role: " +:+ AssumeRole awsConfig
                                  +:+ " with external id "
                                  +:+ AssumeRoleExternalID awsConfig) w in
            ([fun opts : v2Options =>
                stscredsv2.mkAssumeRoleOptions (stscredsv2.Client opts)
                  (stscredsv2.RoleARN opts) (Some (AssumeRoleExternalID awsConfig))], w)
          else
            let w := logrus.Info ("Assuming role: " +:+ AssumeRole awsConfig) w in
            ([], w) in
        let creds :=
          stscredsv2.NewAssumeRoleProvider stsSvc (AssumeRole awsConfig) assumeRoleOpts in
        let cfg :=
          awsv2.mkConfig (awsv2.Retryer cfg) (awsv2.HTTPClient cfg)
            (Some (stscredsv2.CredentialsCache creds)) in
        ((cfg, None), w)
      else ((cfg, None), w)
  end.

Definition CreateDefaultV2Config (cfg : externaldns.Config) (w : World)
    : Outcome v2Config :=
  let '((result, err), w) :=
    newV2Config
      (mkAWSSessionConfig (externaldns.AWSAssumeRole cfg)
         (externaldns.AWSAssumeRoleExternalID cfg)
         (externaldns.AWSAPIRetries cfg) "") w in
  match err with
  | Some err => logrus.Fatal err w
  | None => Returned result w
  end.

Definition CreateDefaultSession (cfg : externaldns.Config) (w : World)
    : Outcome (option session.Session) :=
  let '((result, err), w) :=
    newSession
      (mkAWSSessionConfig (externaldns.AWSAssumeRole cfg)
         (externaldns.AWSAssumeRoleExternalID cfg)
         (externaldns.AWSAPIRetries cfg) "") w in
  match err with
  | Some err => logrus.Fatal err w
  | None => Returned result w
  end.

(** The body of [for _, profile := range cfg.AWSProfiles] in
    [CreateSessions], over the profiles still to visit. *)
Fixpoint CreateSessions_range (cfg : externaldns.Config) (profiles : list string)
    (result : gmap string (option session.Session)) (w : World)
    : Outcome (gmap string (option session.Session)) :=
  match profiles with
  | [] => Returned result w
  | profile :: profiles =>
      let '((session, err), w) :=
        newSession
          (mkAWSSessionConfig (externaldns.AWSAssumeRole cfg)
             (externaldns.AWSAssumeRoleExternalID cfg)
             (externaldns.AWSAPIRetries cfg) profile) w in
      match err with
      | Some err => logrus.Fatal err w
      | None => CreateSessions_range cfg profiles (<[profile := session]> result) w
      end
  end.

Definition CreateSessions (cfg : externaldns.Config) (w : World)
    : Outcome (gmap string (option session.Session)) :=
  let result : gmap string (option session.Session) := ∅ in
  if (len (externaldns.AWSProfiles cfg) =? 0)%Z
     || ((len (externaldns.AWSProfiles cfg) =? 1)%Z
         && match index (externaldns.AWSProfiles cfg) 0 with
            | Some p => String.eqb p ""
            | None => false
            end)
  then
    let '((session, err), w) :=
      newSession
        (mkAWSSessionConfig (externaldns.AWSAssumeRole cfg)
           (externaldns.AWSAssumeRoleExternalID cfg)
           (externaldns.AWSAPIRetries cfg) "") w in
    match err with
    | Some err => logrus.Fatal err w
    | None => Returned (<[defaultAWSProfile := session]> result) w
    end
  else CreateSessions_range cfg (externaldns.AWSProfiles cfg) result w.

End Package.

(** ** Vocabulary for the statements *)

(** The [AWSSessionConfig] literal the entry points build from the
    process configuration, for the profile [profile] (the two default
    entry points and the first branch of [CreateSessions] leave [Profile]
    at its zero value, the empty string). *)
Definition sessionConfigFor (cfg : externaldns.Config) (profile : string)
    : AWSSessionConfig :=
  mkAWSSessionConfig (externaldns.AWSAssumeRole cfg)
    (externaldns.AWSAssumeRoleExternalID cfg)
    (externaldns.AWSAPIRetries cfg) profile.

(** The options [newSession] hands to [session.NewSessionWithOptions]. *)
Definition sessionOptions (awsConfig : AWSSessionConfig) : session.Options :=
  session.mkOptions
    (aws.mkConfig (Some (APIRetries awsConfig))
       (Some (instrumented None (mkCallbacks newSession_PathProcessor)))
       None)
    session.SharedConfigEnable (Profile awsConfig).

(** The load options [config.LoadDefaultConfig] ends up with in
    [newV2Config]. *)
Definition loadOptions (awsConfig : AWSSessionConfig) : config.LoadOptions :=
  config.mkLoadOptions
    (Some (fun _ : unit => retry.withMaxAttempts retry.Standard (APIRetries awsConfig)))
    (Some (instrumented (Some http_Client_zero) (mkCallbacks newV2Config_PathProcessor)))
    (Profile awsConfig).

(** The informational lines a build logs about role assumption. *)
Definition assumeRoleLog (awsConfig : AWSSessionConfig) : list Entry :=
  if String.eqb (AssumeRole awsConfig) "" then []
  else if String.eqb (AssumeRoleExternalID awsConfig) "" then
    [mkEntry InfoLevel ("Assuming role: " +:+ AssumeRole awsConfig)]
  else
    [mkEntry InfoLevel ("Assuming role: " +:+ AssumeRole awsConfig
                        +:+ " with external id " +:+ AssumeRoleExternalID awsConfig)].

(** The external ID a build gives the assume-role provider. *)
Definition externalIDOf (awsConfig : AWSSessionConfig) : option string :=
  if String.eqb (AssumeRoleExternalID awsConfig) "" then None
  else Some (AssumeRoleExternalID awsConfig).

(** Closed form of the session [newSession] returns at address [a] when
    the SDK resolved the defaults [d] (see [newSession_ok]). *)
Definition builtSession (Version : string) (awsConfig : AWSSessionConfig)
    (a : nat) (d : session.Defaults) : session.Session :=
  let base :=
    aws.MergeIn (session.defaultConfig d)
      (session.Options_Config (sessionOptions awsConfig)) in
  session.mkSession a
    (if String.eqb (AssumeRole awsConfig) "" then base
     else aws.WithCredentials base
            (credentials.NewCredentials
               (stscreds.mkAssumeRoleProvider base (AssumeRole awsConfig)
                  (externalIDOf awsConfig))))
    (session.defaultBuild d
       ++ [request.AddToUserAgentHandler "ExternalDNS" Version]).

(** Closed form of the configuration [newV2Config] returns when the SDK
    resolved the defaults [d] (see [newV2Config_ok]). *)
Definition builtConfig (awsConfig : AWSSessionConfig) (d : v2Config) : v2Config :=
  let base : v2Config :=
    awsv2.mkConfig (config.Retryer (loadOptions awsConfig))
      (config.HTTPClient (loadOptions awsConfig)) (awsv2.Credentials d) in
  if String.eqb (AssumeRole awsConfig) "" then base
  else awsv2.mkConfig (awsv2.Retryer base) (awsv2.HTTPClient base)
         (Some (stscredsv2.CredentialsCache
                  (stscredsv2.AssumeRoleProvider
                     (stscredsv2.mkAssumeRoleOptions base (AssumeRole awsConfig)
                        (externalIDOf awsConfig))))).

(** The profiles [CreateSessions] builds a session for, in order: the
    empty profile alone when no profile is configured, the configured
    ones otherwise. *)
Definition requestedProfiles (cfg : externaldns.Config) : list string :=
  match externaldns.AWSProfiles cfg with
  | [] => [""]
  | profiles => profiles
  end.

(** The SDK assembles its base session for [profile]. *)
Definition succeeds (sdk : SDK) (cfg : externaldns.Config) (profile : string) : Prop :=
  exists d, sessionDefaults sdk (sessionOptions (sessionConfigFor cfg profile)) = inl d.

(** The world after [n] more sessions were allocated and [l] logged. *)
Definition after (w : World) (l : list Entry) (n : nat) : World :=
  mkWorld (logs w ++ l) (allocated w + n).

(** ** Example environments *)

(** Defaults as the legacy SDK resolves them: its own retry default
    ([-1], "use the service default"), the default HTTP client, the
    credentials of the shared credentials file, one Build handler. *)
Definition exampleDefaults : session.Defaults :=
  session.mkDefaults
    (aws.mkConfig (Some (-1)%Z) (Some http_Client_zero)
       (Some (credentials.sdkResolved "SharedCredentialsProvider")))
    [request.sdkHandler "core.SDKVersionUserAgentHandler"].

Definition exampleV2Defaults : v2Config :=
  awsv2.mkConfig (Some (fun _ : unit => retry.Standard)) (Some http_Client_zero)
    (Some (stscredsv2.sdkResolved "SharedConfigCredentials")).

(** An environment in which the SDK loads every profile. *)
Definition workingSDK : SDK :=
  mkSDK (fun _ => inl exampleDefaults) (fun _ => inl exampleV2Defaults).

Definition loadError : error :=
  sdkError "SharedConfigProfileNotExistsError: failed to get profile".

(** An environment in which the SDK loads no profile. *)
Definition failingSDK : SDK :=
  mkSDK (fun _ => inr loadError) (fun _ => inr loadError).

(** An environment in which only the profile ["broken"] fails to load. *)
Definition brokenProfileSDK : SDK :=
  mkSDK
    (fun opts =>
       if String.eqb (session.Options_Profile opts) "broken" then inr loadError
       else inl exampleDefaults)
    (fun o =>
       if String.eqb (config.SharedConfigProfile o) "broken" then inr loadError
       else inl exampleV2Defaults).

Definition world0 : World := mkWorld [] 0.

Definition roleConfig : AWSSessionConfig :=
  mkAWSSessionConfig "arn:aws:iam::123456789012:role/external-dns" "ext-id" 3 "".

Definition plainConfig : AWSSessionConfig :=
  mkAWSSessionConfig "" "ignored" 5 "".

Definition noProfilesCfg : externaldns.Config :=
  externaldns.mkConfig "" "" 3 [""].

Definition twoProfilesCfg : externaldns.Config :=
  externaldns.mkConfig "" "" 3 ["staging"; "prod"].

Definition repeatedProfilesCfg : externaldns.Config :=
  externaldns.mkConfig "" "" 3 ["staging"; "prod"; "staging"].

Definition brokenProfilesCfg : externaldns.Config :=
  externaldns.mkConfig "" "" 3 ["staging"; "broken"; "prod"].

(** The map and the world [CreateSessions] returns for
    [twoProfilesCfg] in [workingSDK], started in [world0]. *)
Definition twoProfilesMap : gmap string (option session.Session) :=
  <["prod" := Some (builtSession "v0.14.0" (sessionConfigFor twoProfilesCfg "prod")
                      1 exampleDefaults)]>
    (<["staging" := Some (builtSession "v0.14.0"
                            (sessionConfigFor twoProfilesCfg "staging")
                            0 exampleDefaults)]> ∅).

Definition twoProfilesWorld : World := mkWorld [] 2.

(** The role-assumption lines [n] builds of [CreateSessions] log one
    after the other; the line does not depend on the profile. *)
Definition roleLogs (cfg : externaldns.Config) (n : nat) : list Entry :=
  concat (replicate n (assumeRoleLog (sessionConfigFor cfg ""))).

(** ** What the two SDKs do with the retry setting *)

(** The bound a handle puts on the retries of one request: a number, or
    none. *)
Inductive RetryLimit : Type :=
| AtMost (retries : Z)
| Unbounded.

Module client.

(** [aws.UseServiceDefaultRetries] *)
Definition UseServiceDefaultRetries : Z := (-1)%Z.

(** [client.DefaultRetryerMaxNumRetries] *)
Definition DefaultRetryerMaxNumRetries : Z := 3%Z.

(** [client.New] of the legacy SDK: the [NumMaxRetries] of the
    [DefaultRetryer] a service client made from the configuration gets.
    A nil [MaxRetries] and the value [UseServiceDefaultRetries] stand for
    the default. *)
Definition NumMaxRetries (cfg : v1Config) : Z :=
  match aws.MaxRetries cfg with
  | None => DefaultRetryerMaxNumRetries
  | Some maxRetries =>
      if (maxRetries =? UseServiceDefaultRetries)%Z then DefaultRetryerMaxNumRetries
      else maxRetries
  end.

End client.

(** The legacy SDK retries a failed request while
    [r.RetryCount < r.MaxRetries()] ([request.Request.WillRetry]), the
    count starting at zero: at most [NumMaxRetries] retries follow the
    first attempt, none when that number is negative. *)
Definition legacyRetryLimit (cfg : v1Config) : RetryLimit :=
  AtMost (Z.max 0 (client.NumMaxRetries cfg)).

(** The v2 SDK counts attempts, the first one included, and gives up when
    [maxAttempts > 0 && attemptNum >= maxAttempts] (the retry middleware,
    with [maxAttempts] read from the retryer's [MaxAttempts()]): a
    positive limit [n] leaves [n - 1] retries, and a limit that is not
    positive is never reached. *)
Definition v2RetryLimit (r : retry.Retryer) : RetryLimit :=
  if (0 <? retry.MaxAttempts r)%Z then AtMost (retry.MaxAttempts r - 1)
  else Unbounded.

(** ** "The identical policy", as a relation between the two handles *)

(** The same bound on retries. *)
Definition sameRetryLimit (s : session.Session) (c : v2Config) : Prop :=
  exists r,
    awsv2.Retryer c = Some r
    /\ legacyRetryLimit (session.Config s) = v2RetryLimit (r tt).

(** Path reducers that agree on every path. *)
Definition sameReducer (s : session.Session) (c : v2Config) : Prop :=
  exists next1 cbs1 next2 cbs2,
    aws.HTTPClient (session.Config s) = Some (instrumented next1 cbs1)
    /\ awsv2.HTTPClient c = Some (instrumented next2 cbs2)
    /\ forall path, PathProcessor cbs1 path = PathProcessor cbs2 path.

(** The same client under the instrumentation. *)
Definition sameWrappedClient (s : session.Session) (c : v2Config) : Prop :=
  exists next cbs1 cbs2,
    aws.HTTPClient (session.Config s) = Some (instrumented next cbs1)
    /\ awsv2.HTTPClient c = Some (instrumented next cbs2).

(** The role and external ID of the assume-role provider a handle's
    credentials are built around, if they are. *)
Definition legacyAssumedRole (s : session.Session) : option (string * option string) :=
  match aws.Credentials (session.Config s) with
  | Some (credentials.NewCredentials p) =>
      Some (stscreds.RoleARN p, stscreds.ExternalID p)
  | _ => None
  end.

Definition v2AssumedRole (c : v2Config) : option (string * option string) :=
  match awsv2.Credentials c with
  | Some (stscredsv2.CredentialsCache (stscredsv2.AssumeRoleProvider o)) =>
      Some (stscredsv2.RoleARN o, stscredsv2.ExternalID o)
  | _ => None
  end.

(** Both handles configured alike in every respect the builds decide:
    retries, instrumentation and role assumption. *)
Definition samePolicy (s : session.Session) (c : v2Config) : Prop :=
  sameRetryLimit s c
  /\ sameReducer s c
  /\ sameWrappedClient s c
  /\ legacyAssumedRole s = v2AssumedRole c.

(** * Properties *)

(** ** Splitting on one byte *)

Lemma append_cons (c : ascii) (s t : string) : String c s +:+ t = String c (s +:+ t).
Proof. reflexivity. Qed.

Lemma append_nil_l (t : string) : "" +:+ t = t.
Proof. reflexivity. Qed.

Lemma append_assoc (s t u : string) : s +:+ (t +:+ u) = (s +:+ t) +:+ u.
Proof.
  induction s as [|c s IH]; [done|].
  rewrite !append_cons. by rewrite IH.
Qed.

Section Split.

Variable sep : ascii.

Lemma Split_not_nil (s : string) : GoStrings.Split s sep ≠ [].
Proof.
  destruct s as [|c rest]; simpl; [done|].
  destruct (Ascii.eqb c sep); [done|].
  by destruct (GoStrings.Split rest sep).
Qed.

Lemma Split_length_pos (s : string) : (0 < List.length (GoStrings.Split s sep))%nat.
Proof.
  pose proof (Split_not_nil s) as Hne.
  destruct (GoStrings.Split s sep); [done | simpl; lia].
Qed.

Lemma Join_cons_char (c : ascii) (part : string) (parts : list string) :
  GoStrings.Join (String c part :: parts) sep
  = String c (GoStrings.Join (part :: parts) sep).
Proof. by destruct parts. Qed.

(** Joining the pieces gives the input back. *)
Lemma Join_Split (s : string) : GoStrings.Join (GoStrings.Split s sep) sep = s.
Proof.
  induction s as [|c rest IH]; simpl; [done|].
  destruct (Ascii.eqb c sep) eqn:Hc.
  - apply Ascii.eqb_eq in Hc as ->.
    pose proof (Split_not_nil rest) as Hne.
    destruct (GoStrings.Split rest sep) as [|part parts] eqn:Hs; [done|].
    simpl in *. by rewrite IH.
  - pose proof (Split_not_nil rest) as Hne.
    destruct (GoStrings.Split rest sep) as [|part parts] eqn:Hs; [done|].
    rewrite Join_cons_char. by rewrite IH.
Qed.

(** No piece holds the separator. *)
Lemma Split_no_sep (s : string) :
  Forall (fun part => GoStrings.ContainsByte part sep = false) (GoStrings.Split s sep).
Proof.
  induction s as [|c rest IH]; simpl.
  - by constructor.
  - destruct (Ascii.eqb c sep) eqn:Hc.
    + by constructor.
    + destruct (GoStrings.Split rest sep) as [|part parts].
      * constructor; [|done]. simpl. by rewrite Hc.
      * inversion IH; subst. constructor; [|done]. simpl. by rewrite Hc.
Qed.

Lemma Join_snoc (parts : list string) (part : string) :
  parts ≠ [] ->
  GoStrings.Join (parts ++ [part]) sep
  = GoStrings.Join parts sep +:+ String sep part.
Proof.
  induction parts as [|x parts IH]; [done|]. intros _.
  destruct parts as [|y parts]; [done|].
  change (GoStrings.Join ((x :: y :: parts) ++ [part]) sep)
    with (x +:+ String sep (GoStrings.Join ((y :: parts) ++ [part]) sep)).
  rewrite IH by done.
  change (GoStrings.Join (x :: y :: parts) sep)
    with (x +:+ String sep (GoStrings.Join (y :: parts) sep)).
  by rewrite <- append_assoc.
Qed.

(** Splitting distributes over a separator in the input. *)
Lemma Split_app (a b : string) :
  GoStrings.Split (a +:+ String sep b) sep
  = GoStrings.Split a sep ++ GoStrings.Split b sep.
Proof.
  induction a as [|c a IH]; [rewrite append_nil_l | rewrite append_cons]; simpl.
  - by rewrite Ascii.eqb_refl.
  - destruct (Ascii.eqb c sep); [by rewrite IH|].
    rewrite IH. pose proof (Split_not_nil a) as Hne.
    by destruct (GoStrings.Split a sep).
Qed.

(** The last piece is the part of the input after its last separator. *)
Lemma Split_last (s : string) :
  exists seg,
    last (GoStrings.Split s sep) = Some seg
    /\ GoStrings.ContainsByte seg sep = false
    /\ (s = seg \/ exists pre, s = pre +:+ String sep seg).
Proof.
  pose proof (Split_not_nil s) as Hne.
  pose proof (Split_no_sep s) as Hall.
  pose proof (Join_Split s) as Hjoin.
  destruct (GoStrings.Split s sep) as [|x l _] using rev_ind; [done|].
  exists x. rewrite last_snoc. split; [done|].
  apply Forall_app in Hall as [_ Hx]. inversion Hx; subst. split; [done|].
  destruct l as [|y l].
  - left. done.
  - right. exists (GoStrings.Join (y :: l) sep).
    by rewrite <- Join_snoc.
Qed.

End Split.

(** [s[len(s)-1]] is the last element, and panics exactly on the empty
    slice. *)
Lemma index_len_pred {A : Type} (s : list A) : index s (len s - 1) = last s.
Proof.
  unfold index, len. rewrite last_lookup.
  destruct s as [|x s]; [done|].
  cbn [List.length].
  destruct (Z.ltb_spec (Z.of_nat (S (List.length s)) - 1) 0); [lia|].
  f_equal. lia.
Qed.

(** ** The two build operations in closed form *)

Section Build.

Variable Version : string.
Variable sdk : SDK.

Lemma newSession_ok (awsConfig : AWSSessionConfig) (w : World) (d : session.Defaults) :
  sessionDefaults sdk (sessionOptions awsConfig) = inl d ->
  newSession Version sdk awsConfig w
  = ((Some (builtSession Version awsConfig (allocated w) d), None),
     after w (assumeRoleLog awsConfig) 1).
Proof.
  intros Hd. unfold newSession, NewSessionWithOptions.
  change (session.mkOptions _ _ _) with (sessionOptions awsConfig).
  rewrite Hd. unfold builtSession, assumeRoleLog, externalIDOf, after.
  destruct (String.eqb (AssumeRole awsConfig) "");
    [|destruct (String.eqb (AssumeRoleExternalID awsConfig) "")];
    cbn; rewrite ?app_nil_r, ?Nat.add_1_r; reflexivity.
Qed.

Lemma newSession_err (awsConfig : AWSSessionConfig) (w : World) (err : error) :
  sessionDefaults sdk (sessionOptions awsConfig) = inr err ->
  newSession Version sdk awsConfig w
  = ((None, Some (Errorf_w "instantiating AWS session: " err)), w).
Proof.
  intros Hd. unfold newSession, NewSessionWithOptions.
  change (session.mkOptions _ _ _) with (sessionOptions awsConfig).
  by rewrite Hd.
Qed.

Lemma newV2Config_ok (awsConfig : AWSSessionConfig) (w : World) (d : v2Config) :
  configDefaults sdk (loadOptions awsConfig) = inl d ->
  newV2Config sdk awsConfig w
  = ((builtConfig awsConfig d, None), after w (assumeRoleLog awsConfig) 0).
Proof.
  intros Hd. unfold newV2Config, LoadDefaultConfig.
  change (fold_left _ _ config.LoadOptions_zero) with (loadOptions awsConfig).
  rewrite Hd. unfold builtConfig, assumeRoleLog, externalIDOf, after.
  destruct w as [l n].
  destruct (String.eqb (AssumeRole awsConfig) "");
    [|destruct (String.eqb (AssumeRoleExternalID awsConfig) "")];
    cbn; rewrite ?app_nil_r, ?Nat.add_0_r; reflexivity.
Qed.

Lemma newV2Config_err (awsConfig : AWSSessionConfig) (w : World) (err : error) :
  configDefaults sdk (loadOptions awsConfig) = inr err ->
  newV2Config sdk awsConfig w
  = ((awsv2.zero, Some (Errorf_w "instantiating AWS config: " err)), w).
Proof.
  intros Hd. unfold newV2Config, LoadDefaultConfig.
  change (fold_left _ _ config.LoadOptions_zero) with (loadOptions awsConfig).
  by rewrite Hd.
Qed.

End Build.

(** ** The loop of [CreateSessions] *)

Section Range.

Variable Version : string.
Variable sdk : SDK.
Variable cfg : externaldns.Config.

Lemma in_tail_of_last_head {A : Type} (x : A) (l : list A) :
  (forall j, (0 < j)%nat -> (x :: l) !! j ≠ Some x) -> x ∉ l.
Proof.
  intros Hlast [j Hj]%list_elem_of_lookup.
  apply (Hlast (S j)); [lia | done].
Qed.

(** When every build succeeds the loop returns; one session is allocated
    per visited profile, in order, keys outside the list keep their entry
    and each name of the list maps to the session of its last occurrence. *)
Lemma CreateSessions_range_ok (profiles : list string) :
  forall (result : gmap string (option session.Session)) (w : World),
    (forall p, p ∈ profiles -> succeeds sdk cfg p) ->
    exists m w',
      CreateSessions_range Version sdk cfg profiles result w = Returned m w'
      /\ allocated w' = (allocated w + List.length profiles)%nat
      /\ dom m = dom result ∪ list_to_set profiles
      /\ (forall k, k ∉ profiles -> m !! k = result !! k)
      /\ (forall i p, profiles !! i = Some p ->
            (forall j, (i < j)%nat -> profiles !! j ≠ Some p) ->
            exists d,
              sessionDefaults sdk (sessionOptions (sessionConfigFor cfg p)) = inl d
              /\ m !! p = Some (Some (builtSession Version (sessionConfigFor cfg p)
                                        (allocated w + i) d))).
Proof.
  induction profiles as [|p ps IH]; intros result w Hall.
  - exists result, w. simpl. repeat split; [lia | set_solver | done..].
  - destruct (Hall p) as [d Hd]; [set_solver|].
    cbn [CreateSessions_range].
    change (mkAWSSessionConfig _ _ _ p) with (sessionConfigFor cfg p).
    rewrite (newSession_ok _ _ _ _ _ Hd).
    destruct (IH (<[p := Some (builtSession Version (sessionConfigFor cfg p)
                                 (allocated w) d)]> result)
                 (after w (assumeRoleLog (sessionConfigFor cfg p)) 1))
      as (m & w' & Hrun & Halloc & Hdom & Hframe & Hlast); [set_solver|].
    exists m, w'. split; [done|]. split; [simpl in *; lia|].
    split; [rewrite Hdom, dom_insert_L; set_solver|].
    split.
    + intros k Hk. rewrite Hframe by set_solver.
      apply lookup_insert_ne. set_solver.
    + intros [|i] q Hq Hafter.
      * simpl in Hq. injection Hq as <-.
        exists d. split; [done|].
        rewrite Hframe by (by apply in_tail_of_last_head).
        rewrite lookup_insert_eq. by rewrite Nat.add_0_r.
      * simpl in Hq.
        destruct (Hlast i q Hq) as (d' & Hd' & Hm).
        { intros j Hj. apply (Hafter (S j)). lia. }
        exists d'. split; [done|]. rewrite Hm. simpl.
        do 3 f_equal. lia.
Qed.

(** When some build fails the loop ends the process at the first failing
    profile, with the wrapped error logged at fatal level. *)
Lemma CreateSessions_range_fail (profiles : list string) :
  forall (result : gmap string (option session.Session)) (w : World) p err,
    p ∈ profiles ->
    sessionDefaults sdk (sessionOptions (sessionConfigFor cfg p)) = inr err ->
    exists p0 err0 w',
      p0 ∈ profiles
      /\ sessionDefaults sdk (sessionOptions (sessionConfigFor cfg p0)) = inr err0
      /\ CreateSessions_range Version sdk cfg profiles result w = Exited 1 w'
      /\ last (logs w')
         = Some (mkEntry FatalLevel ("instantiating AWS session: " +:+ Error err0)).
Proof.
  induction profiles as [|q qs IH]; intros result w p err Hin Hp; [set_solver|].
  cbn [CreateSessions_range].
  change (mkAWSSessionConfig _ _ _ q) with (sessionConfigFor cfg q).
  destruct (sessionDefaults sdk (sessionOptions (sessionConfigFor cfg q)))
    as [d|err0] eqn:Hq.
  - rewrite (newSession_ok _ _ _ _ _ Hq).
    assert (p ∈ qs) as Hin'.
    { apply elem_of_cons in Hin as [->|?]; [congruence | done]. }
    destruct (IH (<[q := Some (builtSession Version (sessionConfigFor cfg q)
                                 (allocated w) d)]> result)
                 (after w (assumeRoleLog (sessionConfigFor cfg q)) 1)
                 p err Hin' Hp)
      as (p0 & e0 & w' & Hp0 & He0 & Hrun & Hlog).
    exists p0, e0, w'. split; [set_solver | done].
  - rewrite (newSession_err _ _ _ _ _ Hq).
    exists q, err0. eexists. split; [set_solver|]. split; [done|].
    split; [reflexivity|]. simpl. by rewrite last_snoc.
Qed.

End Range.

(** ** The path-label reducer *)

Lemma newSession_PathProcessor_last (path : string) :
  newSession_PathProcessor path = last (GoStrings.Split path slash).
Proof. apply index_len_pred. Qed.

Lemma newV2Config_PathProcessor_last (path : string) :
  newV2Config_PathProcessor path = last (GoStrings.Split path slash).
Proof. apply index_len_pred. Qed.

Lemma Split_trailing_last (p : string) :
  last (GoStrings.Split (p +:+ "/") slash) = Some "".
Proof.
  change (p +:+ "/") with (p +:+ String slash "").
  rewrite Split_app. simpl. by rewrite last_snoc.
Qed.

Section Claims.

Variable defaultAWSProfile : string.
Variable Version : string.
Variable sdk : SDK.

(** C7. For every path both [PathProcessor] closures return the final
    path segment: a string without ["/"] that is the whole path when the
    path has no ["/"], and what follows its last ["/"] otherwise.  For
    ["/2013-04-01/hostedzone/ZABCDEF123/rrset"] this is ["rrset"].  Each
    successful build hands back a handle whose HTTP client is the
    instrumented client carrying that closure. *)
Theorem C7_path_processor_final_segment :
  (forall path, exists seg,
      newSession_PathProcessor path = Some seg
      /\ newV2Config_PathProcessor path = Some seg
      /\ GoStrings.ContainsByte seg slash = false
      /\ (path = seg \/ exists pre, path = pre +:+ "/" +:+ seg))
  /\ newSession_PathProcessor "/2013-04-01/hostedzone/ZABCDEF123/rrset" = Some "rrset"
  /\ newV2Config_PathProcessor "/2013-04-01/hostedzone/ZABCDEF123/rrset" = Some "rrset"
  /\ (forall awsConfig w d,
        sessionDefaults sdk (sessionOptions awsConfig) = inl d ->
        exists s w',
          newSession Version sdk awsConfig w = ((Some s, None), w')
          /\ aws.HTTPClient (session.Config s)
             = Some (instrumented None (mkCallbacks newSession_PathProcessor)))
  /\ (forall awsConfig w d,
        configDefaults sdk (loadOptions awsConfig) = inl d ->
        exists c w',
          newV2Config sdk awsConfig w = ((c, None), w')
          /\ awsv2.HTTPClient c
             = Some (instrumented (Some http_Client_zero)
                       (mkCallbacks newV2Config_PathProcessor))).
Proof.
  split; [|split; [reflexivity|split; [reflexivity|split]]].
  - intros path. destruct (Split_last slash path) as (seg & Hlast & Hno & Hdec).
    exists seg. rewrite newSession_PathProcessor_last, newV2Config_PathProcessor_last.
    repeat split; done.
  - intros awsConfig w d Hd. rewrite (newSession_ok _ _ _ _ _ Hd).
    do 2 eexists. split; [reflexivity|].
    unfold builtSession. by destruct (String.eqb (AssumeRole awsConfig) "").
  - intros awsConfig w d Hd. rewrite (newV2Config_ok _ _ _ _ Hd).
    do 2 eexists. split; [reflexivity|].
    unfold builtConfig. by destruct (String.eqb (AssumeRole awsConfig) "").
Qed.

(** C9. The reducer never panics: splitting on ["/"] never gives an empty
    slice, so the index [len(parts)-1] is in range and both closures
    return a label for every input; the label of the empty path and of
    every path ending in ["/"] is the empty string. *)
Theorem C9_path_processor_total :
  (forall path,
      (exists part parts, GoStrings.Split path slash = part :: parts)
      /\ (0 <= len (GoStrings.Split path slash) - 1
          < len (GoStrings.Split path slash))%Z)
  /\ (forall path,
        is_Some (newSession_PathProcessor path)
        /\ is_Some (newV2Config_PathProcessor path))
  /\ newSession_PathProcessor "" = Some ""
  /\ newV2Config_PathProcessor "" = Some ""
  /\ (forall p,
        newSession_PathProcessor (p +:+ "/") = Some ""
        /\ newV2Config_PathProcessor (p +:+ "/") = Some "").
Proof.
  split; [|split; [|split; [reflexivity|split; [reflexivity|]]]].
  - intros path. split.
    + pose proof (Split_not_nil slash path).
      destruct (GoStrings.Split path slash) as [|part parts]; [done | eauto].
    + pose proof (Split_length_pos slash path). unfold len. lia.
  - intros path. destruct (Split_last slash path) as (seg & Hlast & _).
    rewrite newSession_PathProcessor_last, newV2Config_PathProcessor_last, Hlast.
    by split.
  - intros p.
    rewrite newSession_PathProcessor_last, newV2Config_PathProcessor_last.
    by rewrite Split_trailing_last.
Qed.

(** C1. The claim is that, for [APIRetries >= 0], the handle of either
    build limits the retries of a request to [APIRetries] exactly.  The
    legacy session does: its [MaxRetries] is [APIRetries], which the SDK
    reads as the number of retries.  The v2 configuration does not:
    [newV2Config] hands [APIRetries] to [retry.AddWithMaxAttempts], a
    limit on attempts, so for [APIRetries > 0] a request gets at most
    [APIRetries - 1] retries, and for [APIRetries = 0] the limit is never
    reached.  In no case is the v2 bound [APIRetries]. *)
Theorem C1_v2_retry_limit_differs_from_APIRetries
    (awsConfig : AWSSessionConfig) (w : World) :
  (0 <= APIRetries awsConfig)%Z ->
  (forall d,
      sessionDefaults sdk (sessionOptions awsConfig) = inl d ->
      exists s w',
        newSession Version sdk awsConfig w = ((Some s, None), w')
        /\ aws.MaxRetries (session.Config s) = Some (APIRetries awsConfig)
        /\ legacyRetryLimit (session.Config s) = AtMost (APIRetries awsConfig))
  /\ (forall d,
        configDefaults sdk (loadOptions awsConfig) = inl d ->
        exists c w' r,
          newV2Config sdk awsConfig w = ((c, None), w')
          /\ awsv2.Retryer c = Some r
          /\ retry.MaxAttempts (r tt) = APIRetries awsConfig
          /\ v2RetryLimit (r tt)
             = (if (APIRetries awsConfig =? 0)%Z then Unbounded
                else AtMost (APIRetries awsConfig - 1))
          /\ v2RetryLimit (r tt) ≠ AtMost (APIRetries awsConfig)).
Proof.
  intros Hpos. split; intros d Hd.
  - rewrite (newSession_ok _ _ _ _ _ Hd). do 2 eexists. split; [reflexivity|].
    assert (aws.MaxRetries
              (session.Config (builtSession Version awsConfig (allocated w) d))
            = Some (APIRetries awsConfig)) as Hmax.
    { unfold builtSession. by destruct (String.eqb (AssumeRole awsConfig) ""). }
    split; [done|].
    unfold legacyRetryLimit, client.NumMaxRetries. rewrite Hmax.
    unfold client.UseServiceDefaultRetries.
    destruct (Z.eqb_spec (APIRetries awsConfig) (-1)); [lia|].
    f_equal. lia.
  - rewrite (newV2Config_ok _ _ _ _ Hd).
    exists (builtConfig awsConfig d), (after w (assumeRoleLog awsConfig) 0).
    exists (fun _ : unit => retry.withMaxAttempts retry.Standard (APIRetries awsConfig)).
    split; [reflexivity|].
    split; [unfold builtConfig; by destruct (String.eqb (AssumeRole awsConfig) "")|].
    split; [reflexivity|].
    unfold v2RetryLimit. cbn [retry.MaxAttempts].
    destruct (Z.eqb_spec (APIRetries awsConfig) 0) as [H0|H0].
    + rewrite H0. split; [reflexivity | discriminate].
    + destruct (Z.ltb_spec 0 (APIRetries awsConfig)); [|lia].
      split; [reflexivity|]. intros Heq. injection Heq. lia.
Qed.

(** C3. With a non-empty [AssumeRole], each successful build installs
    role-assumption credentials for that role: the legacy session's
    credentials wrap an [AssumeRoleProvider], the v2 configuration's are a
    credentials cache around one; in both the external ID is
    [AssumeRoleExternalID] when that string is non-empty and is left nil
    when it is empty. *)
Theorem C3_assume_role_installs_provider (awsConfig : AWSSessionConfig) (w : World) :
  AssumeRole awsConfig ≠ "" ->
  (forall d,
      sessionDefaults sdk (sessionOptions awsConfig) = inl d ->
      exists s w' p,
        newSession Version sdk awsConfig w = ((Some s, None), w')
        /\ aws.Credentials (session.Config s) = Some (credentials.NewCredentials p)
        /\ stscreds.RoleARN p = AssumeRole awsConfig
        /\ (AssumeRoleExternalID awsConfig ≠ "" ->
            stscreds.ExternalID p = Some (AssumeRoleExternalID awsConfig))
        /\ (AssumeRoleExternalID awsConfig = "" -> stscreds.ExternalID p = None))
  /\ (forall d,
        configDefaults sdk (loadOptions awsConfig) = inl d ->
        exists c w' o,
          newV2Config sdk awsConfig w = ((c, None), w')
          /\ awsv2.Credentials c
             = Some (stscredsv2.CredentialsCache (stscredsv2.AssumeRoleProvider o))
          /\ stscredsv2.RoleARN o = AssumeRole awsConfig
          /\ (AssumeRoleExternalID awsConfig ≠ "" ->
              stscredsv2.ExternalID o = Some (AssumeRoleExternalID awsConfig))
          /\ (AssumeRoleExternalID awsConfig = "" -> stscredsv2.ExternalID o = None)).
Proof.
  intros Hrole%String.eqb_neq. split; intros d Hd.
  - rewrite (newSession_ok _ _ _ _ _ Hd). unfold builtSession. rewrite Hrole.
    do 3 eexists. split; [reflexivity|]. split; [reflexivity|].
    split; [reflexivity|]. unfold externalIDOf. simpl.
    split; [intros ->%String.eqb_neq | intros ->%String.eqb_eq]; done.
  - rewrite (newV2Config_ok _ _ _ _ Hd). unfold builtConfig. rewrite Hrole.
    do 3 eexists. split; [reflexivity|]. split; [reflexivity|].
    split; [reflexivity|]. unfold externalIDOf. simpl.
    split; [intros ->%String.eqb_neq | intros ->%String.eqb_eq]; done.
Qed.

(** C4. With an empty [AssumeRole], whatever [AssumeRoleExternalID] is,
    each successful build leaves the credentials of the handle as the SDK
    resolved them and logs nothing about role assumption. *)
Theorem C4_no_role_keeps_default_credentials (awsConfig : AWSSessionConfig) (w : World) :
  AssumeRole awsConfig = "" ->
  (forall d,
      sessionDefaults sdk (sessionOptions awsConfig) = inl d ->
      exists s w',
        newSession Version sdk awsConfig w = ((Some s, None), w')
        /\ aws.Credentials (session.Config s)
           = aws.Credentials (session.defaultConfig d)
        /\ logs w' = logs w)
  /\ (forall d,
        configDefaults sdk (loadOptions awsConfig) = inl d ->
        exists c w',
          newV2Config sdk awsConfig w = ((c, None), w')
          /\ awsv2.Credentials c = awsv2.Credentials d
          /\ logs w' = logs w).
Proof.
  intros Hrole%String.eqb_eq. split; intros d Hd.
  - rewrite (newSession_ok _ _ _ _ _ Hd).
    unfold builtSession, assumeRoleLog. rewrite Hrole.
    do 2 eexists. split; [reflexivity|]. split; [reflexivity|].
    simpl. by rewrite app_nil_r.
  - rewrite (newV2Config_ok _ _ _ _ Hd).
    unfold builtConfig, assumeRoleLog. rewrite Hrole.
    do 2 eexists. split; [reflexivity|]. split; [reflexivity|].
    simpl. by rewrite app_nil_r.
Qed.

(** C2 (amended). For every configuration for which both SDK loaders
    succeed, the two builds instrument their HTTP client with path
    reducers that agree on every path, install the same role-assumption
    credentials (the role [AssumeRole] and the same external ID when
    [AssumeRole] is set, the SDK's own credentials untouched when it is
    not) and log the same lines.  Besides the type of the handle they
    differ in the client under the instrumentation (the legacy path wraps
    the nil client of its fresh configuration, the v2 path a new
    [http.Client]) and in the user-agent handler, which only the legacy
    session gets. *)
Theorem C2_both_generations_policy_amended
    (awsConfig : AWSSessionConfig) (w : World)
    (d1 : session.Defaults) (d2 : v2Config) :
  sessionDefaults sdk (sessionOptions awsConfig) = inl d1 ->
  configDefaults sdk (loadOptions awsConfig) = inl d2 ->
  exists s w1 c w2,
    newSession Version sdk awsConfig w = ((Some s, None), w1)
    /\ newV2Config sdk awsConfig w = ((c, None), w2)
    /\ aws.HTTPClient (session.Config s)
       = Some (instrumented None (mkCallbacks newSession_PathProcessor))
    /\ awsv2.HTTPClient c
       = Some (instrumented (Some http_Client_zero)
                 (mkCallbacks newV2Config_PathProcessor))
    /\ (forall path, newSession_PathProcessor path = newV2Config_PathProcessor path)
    /\ (AssumeRole awsConfig = "" ->
          aws.Credentials (session.Config s)
          = aws.Credentials (session.defaultConfig d1)
          /\ awsv2.Credentials c = awsv2.Credentials d2)
    /\ (AssumeRole awsConfig ≠ "" ->
          legacyAssumedRole s = Some (AssumeRole awsConfig, externalIDOf awsConfig)
          /\ v2AssumedRole c = Some (AssumeRole awsConfig, externalIDOf awsConfig))
    /\ session.Handlers_Build s
       = session.defaultBuild d1
         ++ [request.AddToUserAgentHandler "ExternalDNS" Version]
    /\ logs w1 = logs w2.
Proof.
  intros H1 H2.
  rewrite (newSession_ok _ _ _ _ _ H1), (newV2Config_ok _ _ _ _ H2).
  do 4 eexists. split; [reflexivity|]. split; [reflexivity|].
  unfold builtSession, builtConfig, legacyAssumedRole, v2AssumedRole.
  destruct (String.eqb_spec (AssumeRole awsConfig) "") as [Hrole|Hrole]; simpl;
    repeat split; done.
Qed.

Lemma CreateSessions_no_profiles (cfg : externaldns.Config) (w : World) :
  externaldns.AWSProfiles cfg = [] \/ externaldns.AWSProfiles cfg = [""] ->
  CreateSessions defaultAWSProfile Version sdk cfg w
  = match newSession Version sdk (sessionConfigFor cfg "") w with
    | ((_, Some err), w) => logrus.Fatal err w
    | ((session, None), w) => Returned {[defaultAWSProfile := session]} w
    end.
Proof.
  unfold CreateSessions. intros [-> | ->]; simpl.
  - change (mkAWSSessionConfig _ _ _ "") with (sessionConfigFor cfg "").
    destruct (newSession _ _ _ _) as [[session [err|]] w']; done.
  - change (mkAWSSessionConfig _ _ _ "") with (sessionConfigFor cfg "").
    destruct (newSession _ _ _ _) as [[session [err|]] w']; done.
Qed.

Lemma CreateSessions_profiles (cfg : externaldns.Config) (w : World) :
  externaldns.AWSProfiles cfg ≠ [] ->
  externaldns.AWSProfiles cfg ≠ [""] ->
  CreateSessions defaultAWSProfile Version sdk cfg w
  = CreateSessions_range Version sdk cfg (externaldns.AWSProfiles cfg) ∅ w.
Proof.
  unfold CreateSessions. intros Hnil Hone.
  destruct (externaldns.AWSProfiles cfg) as [|p [|q l]]; [done| |].
  - simpl. destruct (String.eqb_spec p ""); [congruence | done].
  - unfold len. cbn [List.length].
    destruct (Z.eqb_spec (Z.of_nat (S (S (List.length l)))) 0); [lia|].
    destruct (Z.eqb_spec (Z.of_nat (S (S (List.length l)))) 1); [lia|].
    done.
Qed.

Lemma requestedProfiles_profiles (cfg : externaldns.Config) :
  externaldns.AWSProfiles cfg ≠ [] ->
  requestedProfiles cfg = externaldns.AWSProfiles cfg.
Proof. unfold requestedProfiles. by destruct (externaldns.AWSProfiles cfg). Qed.

Lemma requestedProfiles_no_profiles (cfg : externaldns.Config) :
  externaldns.AWSProfiles cfg = [] \/ externaldns.AWSProfiles cfg = [""] ->
  requestedProfiles cfg = [""].
Proof. unfold requestedProfiles. by intros [-> | ->]. Qed.

(** C5. When the profile list is empty or is the one-element list holding
    the empty string, [CreateSessions] does what [CreateDefaultSession]
    does and files the result under the default key: it ends the process
    exactly when the default build does, and when the SDK assembles its
    base session it returns a map with exactly one entry, keyed by
    [defaultAWSProfile], holding the session [newSession] builds with
    [Profile] left empty. *)
Theorem C5_no_profiles_single_default_entry (cfg : externaldns.Config) (w : World) :
  externaldns.AWSProfiles cfg = [] \/ externaldns.AWSProfiles cfg = [""] ->
  CreateSessions defaultAWSProfile Version sdk cfg w
  = match CreateDefaultSession Version sdk cfg w with
    | Returned session w' => Returned {[defaultAWSProfile := session]} w'
    | Exited code w' => Exited code w'
    end
  /\ (forall d,
        sessionDefaults sdk (sessionOptions (sessionConfigFor cfg "")) = inl d ->
        exists s m w',
          newSession Version sdk (sessionConfigFor cfg "") w = ((Some s, None), w')
          /\ CreateDefaultSession Version sdk cfg w = Returned (Some s) w'
          /\ CreateSessions defaultAWSProfile Version sdk cfg w = Returned m w'
          /\ size m = 1%nat
          /\ dom m = {[defaultAWSProfile]}
          /\ m !! defaultAWSProfile = Some (Some s)).
Proof.
  intros Hprofiles. rewrite (CreateSessions_no_profiles _ _ Hprofiles).
  unfold CreateDefaultSession.
  change (mkAWSSessionConfig _ _ _ "") with (sessionConfigFor cfg "").
  split.
  - destruct (newSession _ _ _ _) as [[session [err|]] w']; done.
  - intros d Hd. rewrite (newSession_ok _ _ _ _ _ Hd).
    do 3 eexists. split; [reflexivity|]. split; [reflexivity|].
    split; [reflexivity|].
    split; [apply map_size_singleton|].
    split; [apply dom_singleton_L | apply lookup_singleton_eq].
Qed.

(** The session stored for a name is one [newSession] builds with
    [Profile] set to that name. *)
Lemma builtSession_built (cfg : externaldns.Config) (p : string) (a : nat)
    (d : session.Defaults) :
  sessionDefaults sdk (sessionOptions (sessionConfigFor cfg p)) = inl d ->
  exists w0 w1,
    allocated w0 = a
    /\ newSession Version sdk (sessionConfigFor cfg p) w0
       = ((Some (builtSession Version (sessionConfigFor cfg p) a d), None), w1).
Proof.
  intros Hd. exists (mkWorld [] a). eexists. split; [done|].
  by rewrite (newSession_ok _ _ _ _ _ Hd).
Qed.

(** C6. For a list of N distinct profile names that is neither empty nor
    the one-element list holding the empty string, when the SDK assembles
    its base session for each of them, [CreateSessions] returns a map with
    exactly N entries whose keys are the requested names, and the entry of
    each name is a session [newSession] built with [Profile] set to that
    name. *)
Theorem C6_one_entry_per_profile (cfg : externaldns.Config) (w : World) :
  externaldns.AWSProfiles cfg ≠ [] ->
  externaldns.AWSProfiles cfg ≠ [""] ->
  NoDup (externaldns.AWSProfiles cfg) ->
  (forall p, p ∈ externaldns.AWSProfiles cfg -> succeeds sdk cfg p) ->
  exists m w',
    CreateSessions defaultAWSProfile Version sdk cfg w = Returned m w'
    /\ size m = List.length (externaldns.AWSProfiles cfg)
    /\ dom m = list_to_set (externaldns.AWSProfiles cfg)
    /\ (forall p, p ∈ externaldns.AWSProfiles cfg ->
          exists s w0 w1,
            m !! p = Some (Some s)
            /\ newSession Version sdk (sessionConfigFor cfg p) w0
               = ((Some s, None), w1)).
Proof.
  intros Hnil Hone Hnodup Hall.
  rewrite (CreateSessions_profiles _ _ Hnil Hone).
  destruct (CreateSessions_range_ok Version sdk cfg (externaldns.AWSProfiles cfg)
              ∅ w Hall) as (m & w' & Hrun & _ & Hdom & _ & Hlast).
  rewrite dom_empty_L, (left_id_L ∅ (∪)) in Hdom.
  exists m, w'. split; [done|]. split; [|split; [done|]].
  - rewrite <- size_dom, Hdom. by apply size_list_to_set.
  - intros p [i Hi]%list_elem_of_lookup.
    destruct (Hlast i p Hi) as (d & Hd & Hm).
    { intros j Hj Hpj. pose proof (NoDup_lookup _ _ _ _ Hnodup Hi Hpj). lia. }
    destruct (builtSession_built cfg p (allocated w + i) d Hd) as (w0 & w1 & _ & Hb).
    eexists _, w0, w1. eauto.
Qed.

(** C10. For a list that may repeat names (and is neither empty nor the
    one-element list holding the empty string), when the SDK assembles its
    base session for each name, [CreateSessions] builds one session per
    occurrence, in list order, and returns a map with exactly one entry per
    distinct name; the entry of a name is the session built for its last
    occurrence. *)
Theorem C10_duplicate_profiles_last_wins (cfg : externaldns.Config) (w : World) :
  externaldns.AWSProfiles cfg ≠ [] ->
  externaldns.AWSProfiles cfg ≠ [""] ->
  (forall p, p ∈ externaldns.AWSProfiles cfg -> succeeds sdk cfg p) ->
  exists m w',
    CreateSessions defaultAWSProfile Version sdk cfg w = Returned m w'
    /\ allocated w' = (allocated w + List.length (externaldns.AWSProfiles cfg))%nat
    /\ dom m = list_to_set (externaldns.AWSProfiles cfg)
    /\ size m = List.length (remove_dups (externaldns.AWSProfiles cfg))
    /\ (forall i p,
          externaldns.AWSProfiles cfg !! i = Some p ->
          (forall j, (i < j)%nat -> externaldns.AWSProfiles cfg !! j ≠ Some p) ->
          exists s w0 w1,
            m !! p = Some (Some s)
            /\ session.addr s = (allocated w + i)%nat
            /\ allocated w0 = (allocated w + i)%nat
            /\ newSession Version sdk (sessionConfigFor cfg p) w0
               = ((Some s, None), w1)).
Proof.
  intros Hnil Hone Hall.
  rewrite (CreateSessions_profiles _ _ Hnil Hone).
  destruct (CreateSessions_range_ok Version sdk cfg (externaldns.AWSProfiles cfg)
              ∅ w Hall) as (m & w' & Hrun & Halloc & Hdom & _ & Hlast).
  rewrite dom_empty_L, (left_id_L ∅ (∪)) in Hdom.
  exists m, w'. split; [done|]. split; [done|]. split; [done|]. split.
  - rewrite <- size_dom, Hdom.
    rewrite <- (size_list_to_set (C := gset string) (remove_dups _))
      by apply NoDup_remove_dups.
    f_equal. apply set_eq. intros x.
    rewrite !elem_of_list_to_set. by rewrite elem_of_remove_dups.
  - intros i p Hi Hafter.
    destruct (Hlast i p Hi Hafter) as (d & Hd & Hm).
    destruct (builtSession_built cfg p (allocated w + i) d Hd) as (w0 & w1 & Hw0 & Hb).
    eexists _, w0, w1. eauto.
Qed.

Lemma CreateSessions_fail (cfg : externaldns.Config) (w : World) (p : string) (err : error) :
  p ∈ requestedProfiles cfg ->
  sessionDefaults sdk (sessionOptions (sessionConfigFor cfg p)) = inr err ->
  exists p0 err0 w',
    p0 ∈ requestedProfiles cfg
    /\ sessionDefaults sdk (sessionOptions (sessionConfigFor cfg p0)) = inr err0
    /\ CreateSessions defaultAWSProfile Version sdk cfg w = Exited 1 w'
    /\ last (logs w')
       = Some (mkEntry FatalLevel ("instantiating AWS session: " +:+ Error err0)).
Proof.
  intros Hin Hp.
  destruct (decide (externaldns.AWSProfiles cfg = [])) as [Hnil|Hnil];
    [|destruct (decide (externaldns.AWSProfiles cfg = [""])) as [Hone|Hone]].
  1,2: assert (externaldns.AWSProfiles cfg = [] \/ externaldns.AWSProfiles cfg = [""])
         as Hno by tauto;
       rewrite (requestedProfiles_no_profiles _ Hno) in *;
       apply list_elem_of_singleton in Hin as ->;
       rewrite (CreateSessions_no_profiles _ _ Hno), (newSession_err _ _ _ _ _ Hp);
       exists "", err; eexists; split; [set_solver|]; split; [done|];
       split; [reflexivity|]; simpl; by rewrite last_snoc.
  rewrite (requestedProfiles_profiles _ Hnil) in *.
  rewrite (CreateSessions_profiles _ _ Hnil Hone).
  by apply (CreateSessions_range_fail Version sdk cfg _ ∅ w p err).
Qed.

(** C8. When the SDK fails to assemble its base configuration, each
    build returns no handle (nil, respectively the zero configuration) and
    an error that wraps the SDK's: its message is a descriptive prefix
    followed by the SDK's message, and unwrapping it gives the SDK's error
    back.  The two default entry points then log that message at fatal
    level and exit with status 1.  [CreateSessions] does the same as soon
    as the build of one requested profile fails, so whenever it returns a
    map, every requested build succeeded and no requested name is missing
    from the map. *)
Theorem C8_construction_failure_is_fatal
    (cfg : externaldns.Config) (awsConfig : AWSSessionConfig) (w : World) :
  (forall err,
      sessionDefaults sdk (sessionOptions awsConfig) = inr err ->
      exists err',
        newSession Version sdk awsConfig w = ((None, Some err'), w)
        /\ Error err' = "instantiating AWS session: " +:+ Error err
        /\ Unwrap err' = Some err)
  /\ (forall err,
        configDefaults sdk (loadOptions awsConfig) = inr err ->
        exists err',
          newV2Config sdk awsConfig w = ((awsv2.zero, Some err'), w)
          /\ Error err' = "instantiating AWS config: " +:+ Error err
          /\ Unwrap err' = Some err)
  /\ (forall err,
        sessionDefaults sdk (sessionOptions (sessionConfigFor cfg "")) = inr err ->
        CreateDefaultSession Version sdk cfg w
        = Exited 1
            (mkWorld
               (logs w ++ [mkEntry FatalLevel
                             ("instantiating AWS session: " +:+ Error err)])
               (allocated w)))
  /\ (forall err,
        configDefaults sdk (loadOptions (sessionConfigFor cfg "")) = inr err ->
        CreateDefaultV2Config sdk cfg w
        = Exited 1
            (mkWorld
               (logs w ++ [mkEntry FatalLevel
                             ("instantiating AWS config: " +:+ Error err)])
               (allocated w)))
  /\ (forall p err,
        p ∈ requestedProfiles cfg ->
        sessionDefaults sdk (sessionOptions (sessionConfigFor cfg p)) = inr err ->
        exists p0 err0 w',
          p0 ∈ requestedProfiles cfg
          /\ sessionDefaults sdk (sessionOptions (sessionConfigFor cfg p0)) = inr err0
          /\ CreateSessions defaultAWSProfile Version sdk cfg w = Exited 1 w'
          /\ last (logs w')
             = Some (mkEntry FatalLevel
                       ("instantiating AWS session: " +:+ Error err0)))
  /\ (forall m w',
        CreateSessions defaultAWSProfile Version sdk cfg w = Returned m w' ->
        (forall p, p ∈ requestedProfiles cfg -> succeeds sdk cfg p)
        /\ (externaldns.AWSProfiles cfg ≠ [] ->
            externaldns.AWSProfiles cfg ≠ [""] ->
            forall p, p ∈ externaldns.AWSProfiles cfg -> is_Some (m !! p))).
Proof.
  split; [|split; [|split; [|split; [|split]]]].
  - intros err Herr. rewrite (newSession_err _ _ _ _ _ Herr). by eexists.
  - intros err Herr. rewrite (newV2Config_err _ _ _ _ Herr). by eexists.
  - intros err Herr. unfold CreateDefaultSession.
    change (mkAWSSessionConfig _ _ _ "") with (sessionConfigFor cfg "").
    by rewrite (newSession_err _ _ _ _ _ Herr).
  - intros err Herr. unfold CreateDefaultV2Config.
    change (mkAWSSessionConfig _ _ _ "") with (sessionConfigFor cfg "").
    by rewrite (newV2Config_err _ _ _ _ Herr).
  - intros p err. apply CreateSessions_fail.
  - intros m w' Hret.
    assert (forall p, p ∈ requestedProfiles cfg -> succeeds sdk cfg p) as Hall.
    { intros p Hin. unfold succeeds.
      destruct (sessionDefaults sdk (sessionOptions (sessionConfigFor cfg p)))
        as [d|err] eqn:Hp; [by exists d|].
      destruct (CreateSessions_fail cfg w p err Hin Hp) as (? & ? & ? & _ & _ & Hex & _).
      congruence. }
    split; [done|]. intros Hnil Hone p Hin.
    rewrite (requestedProfiles_profiles _ Hnil) in Hall.
    rewrite (CreateSessions_profiles _ _ Hnil Hone) in Hret.
    destruct (CreateSessions_range_ok Version sdk cfg (externaldns.AWSProfiles cfg)
                ∅ w Hall) as (m0 & w0 & Hrun & _ & Hdom & _).
    assert (m0 = m) as -> by congruence.
    apply elem_of_dom. rewrite Hdom. set_solver.
Qed.

End Claims.


(** ** The theorems at concrete configurations *)

Lemma C1_witness :
  (exists s w',
      newSession "v0.14.0" workingSDK roleConfig world0 = ((Some s, None), w')
      /\ aws.MaxRetries (session.Config s) = Some 3%Z
      /\ legacyRetryLimit (session.Config s) = AtMost 3)
  /\ (exists c w' r,
        newV2Config workingSDK roleConfig world0 = ((c, None), w')
        /\ awsv2.Retryer c = Some r
        /\ retry.MaxAttempts (r tt) = 3%Z
        /\ v2RetryLimit (r tt) = AtMost 2
        /\ v2RetryLimit (r tt) ≠ AtMost 3).
Proof.
  assert (0 <= APIRetries roleConfig)%Z as Hpos by (vm_compute; discriminate).
  destruct (C1_v2_retry_limit_differs_from_APIRetries "v0.14.0" workingSDK roleConfig
              world0 Hpos) as [Hlegacy Hv2].
  split.
  - apply (Hlegacy exampleDefaults). reflexivity.
  - apply (Hv2 exampleV2Defaults). reflexivity.
Defined.

(** With [APIRetries = 0] the legacy session never retries while the v2
    configuration puts no bound on the retries. *)
Example retry_limits_at_zero :
  exists s w1 c w2 r,
    newSession "v0.14.0" workingSDK (mkAWSSessionConfig "" "" 0 "") world0
    = ((Some s, None), w1)
    /\ newV2Config workingSDK (mkAWSSessionConfig "" "" 0 "") world0 = ((c, None), w2)
    /\ awsv2.Retryer c = Some r
    /\ legacyRetryLimit (session.Config s) = AtMost 0
    /\ v2RetryLimit (r tt) = Unbounded.
Proof. by eexists _, _, _, _, _. Qed.

(** The handles built for [roleConfig] ([APIRetries = 3]) are not
    configured alike: the legacy session allows three retries and the v2
    configuration two, and the clients under the instrumentation differ. *)
Lemma C2_counterexample :
  exists s w1 c w2,
    newSession "v0.14.0" workingSDK roleConfig world0 = ((Some s, None), w1)
    /\ newV2Config workingSDK roleConfig world0 = ((c, None), w2)
    /\ ~ samePolicy s c
    /\ ~ sameRetryLimit s c
    /\ ~ sameWrappedClient s c
    /\ last (session.Handlers_Build s)
       = Some (request.AddToUserAgentHandler "ExternalDNS" "v0.14.0").
Proof.
  eexists _, _, _, _. split; [reflexivity|]. split; [reflexivity|].
  assert (~ sameRetryLimit
              (builtSession "v0.14.0" roleConfig 0 exampleDefaults)
              (builtConfig roleConfig exampleV2Defaults)) as Hretry.
  { intros (r & Hr & Hlimit). injection Hr as <-. discriminate Hlimit. }
  split; [by intros [? _]|]. split; [done|]. split; [|reflexivity].
  intros (next & cbs1 & cbs2 & Hlegacy & Hv2).
  injection Hlegacy as <- _. discriminate Hv2.
Defined.

Lemma C2_witness :
  exists s w1 c w2,
    newSession "v0.14.0" workingSDK roleConfig world0 = ((Some s, None), w1)
    /\ newV2Config workingSDK roleConfig world0 = ((c, None), w2)
    /\ aws.HTTPClient (session.Config s)
       = Some (instrumented None (mkCallbacks newSession_PathProcessor))
    /\ awsv2.HTTPClient c
       = Some (instrumented (Some http_Client_zero)
                 (mkCallbacks newV2Config_PathProcessor))
    /\ (forall path, newSession_PathProcessor path = newV2Config_PathProcessor path)
    /\ (AssumeRole roleConfig = "" ->
          aws.Credentials (session.Config s)
          = aws.Credentials (session.defaultConfig exampleDefaults)
          /\ awsv2.Credentials c = awsv2.Credentials exampleV2Defaults)
    /\ (AssumeRole roleConfig ≠ "" ->
          legacyAssumedRole s
          = Some ("arn:aws:iam::123456789012:role/external-dns", Some "ext-id")
          /\ v2AssumedRole c
             = Some ("arn:aws:iam::123456789012:role/external-dns", Some "ext-id"))
    /\ session.Handlers_Build s
       = session.defaultBuild exampleDefaults
         ++ [request.AddToUserAgentHandler "ExternalDNS" "v0.14.0"]
    /\ logs w1 = logs w2.
Proof.
  apply (C2_both_generations_policy_amended "v0.14.0" workingSDK roleConfig world0
           exampleDefaults exampleV2Defaults); reflexivity.
Defined.

Lemma C3_witness :
  exists s w' p,
    newSession "v0.14.0" workingSDK roleConfig world0 = ((Some s, None), w')
    /\ aws.Credentials (session.Config s) = Some (credentials.NewCredentials p)
    /\ stscreds.RoleARN p = "arn:aws:iam::123456789012:role/external-dns"
    /\ (AssumeRoleExternalID roleConfig ≠ "" -> stscreds.ExternalID p = Some "ext-id")
    /\ (AssumeRoleExternalID roleConfig = "" -> stscreds.ExternalID p = None).
Proof.
  assert (AssumeRole roleConfig ≠ "") as Hrole by discriminate.
  apply (proj1 (C3_assume_role_installs_provider "v0.14.0" workingSDK roleConfig
                  world0 Hrole) exampleDefaults).
  reflexivity.
Defined.

Lemma C4_witness :
  exists c w',
    newV2Config workingSDK plainConfig world0 = ((c, None), w')
    /\ awsv2.Credentials c = Some (stscredsv2.sdkResolved "SharedConfigCredentials")
    /\ logs w' = [].
Proof.
  assert (AssumeRole plainConfig = "") as Hrole by reflexivity.
  apply (proj2 (C4_no_role_keeps_default_credentials "v0.14.0" workingSDK plainConfig
                  world0 Hrole) exampleV2Defaults).
  reflexivity.
Defined.

Lemma C5_witness :
  exists s m w',
    newSession "v0.14.0" workingSDK (sessionConfigFor noProfilesCfg "") world0
    = ((Some s, None), w')
    /\ CreateDefaultSession "v0.14.0" workingSDK noProfilesCfg world0
       = Returned (Some s) w'
    /\ CreateSessions "default" "v0.14.0" workingSDK noProfilesCfg world0
       = Returned m w'
    /\ size m = 1%nat
    /\ dom m = {["default"]}
    /\ m !! "default" = Some (Some s).
Proof.
  assert (externaldns.AWSProfiles noProfilesCfg = []
          \/ externaldns.AWSProfiles noProfilesCfg = [""]) as Hprofiles
    by (right; reflexivity).
  apply (proj2 (C5_no_profiles_single_default_entry "default" "v0.14.0" workingSDK
                  noProfilesCfg world0 Hprofiles) exampleDefaults).
  reflexivity.
Defined.

Lemma workingSDK_succeeds (cfg : externaldns.Config) (p : string) :
  succeeds workingSDK cfg p.
Proof. exists exampleDefaults. reflexivity. Defined.

Lemma C6_witness :
  exists m w',
    CreateSessions "default" "v0.14.0" workingSDK twoProfilesCfg world0 = Returned m w'
    /\ size m = 2%nat
    /\ dom m = list_to_set ["staging"; "prod"]
    /\ (forall p, p ∈ ["staging"; "prod"] ->
          exists s w0 w1,
            m !! p = Some (Some s)
            /\ newSession "v0.14.0" workingSDK (sessionConfigFor twoProfilesCfg p) w0
               = ((Some s, None), w1)).
Proof.
  apply (C6_one_entry_per_profile "default" "v0.14.0" workingSDK twoProfilesCfg world0).
  - discriminate.
  - discriminate.
  - apply NoDup_cons. split; [|apply NoDup_singleton].
    intros Hin%list_elem_of_singleton. discriminate.
  - intros p _. apply workingSDK_succeeds.
Defined.

Lemma C7_witness :
  exists s w',
    newSession "v0.14.0" workingSDK roleConfig world0 = ((Some s, None), w')
    /\ aws.HTTPClient (session.Config s)
       = Some (instrumented None (mkCallbacks newSession_PathProcessor)).
Proof.
  destruct (C7_path_processor_final_segment "v0.14.0" workingSDK)
    as (_ & _ & _ & Hlegacy & _).
  apply (Hlegacy roleConfig world0 exampleDefaults). reflexivity.
Defined.

Lemma C8_witness :
  (exists err',
      newSession "v0.14.0" failingSDK plainConfig world0 = ((None, Some err'), world0)
      /\ Error err' = "instantiating AWS session: " +:+ Error loadError
      /\ Unwrap err' = Some loadError)
  /\ (exists p0 err0 w',
        p0 ∈ requestedProfiles brokenProfilesCfg
        /\ sessionDefaults brokenProfileSDK
             (sessionOptions (sessionConfigFor brokenProfilesCfg p0)) = inr err0
        /\ CreateSessions "default" "v0.14.0" brokenProfileSDK brokenProfilesCfg world0
           = Exited 1 w'
        /\ last (logs w')
           = Some (mkEntry FatalLevel ("instantiating AWS session: " +:+ Error err0))).
Proof.
  split.
  - apply (proj1 (C8_construction_failure_is_fatal "default" "v0.14.0" failingSDK
                    noProfilesCfg plainConfig world0) loadError).
    reflexivity.
  - destruct (C8_construction_failure_is_fatal "default" "v0.14.0" brokenProfileSDK
                brokenProfilesCfg plainConfig world0) as (_ & _ & _ & _ & Hfatal & _).
    apply (Hfatal "broken" loadError); [|reflexivity].
    apply list_elem_of_further, list_elem_of_here.
Defined.

Lemma C10_witness :
  exists m w',
    CreateSessions "default" "v0.14.0" workingSDK repeatedProfilesCfg world0
    = Returned m w'
    /\ allocated w' = 3%nat
    /\ dom m = list_to_set ["staging"; "prod"; "staging"]
    /\ size m = List.length (remove_dups ["staging"; "prod"; "staging"])
    /\ (forall i p,
          ["staging"; "prod"; "staging"] !! i = Some p ->
          (forall j, (i < j)%nat -> ["staging"; "prod"; "staging"] !! j ≠ Some p) ->
          exists s w0 w1,
            m !! p = Some (Some s)
            /\ session.addr s = i
            /\ allocated w0 = i
            /\ newSession "v0.14.0" workingSDK (sessionConfigFor repeatedProfilesCfg p) w0
               = ((Some s, None), w1)).
Proof.
  apply (C10_duplicate_profiles_last_wins "default" "v0.14.0" workingSDK
           repeatedProfilesCfg world0).
  - discriminate.
  - discriminate.
  - intros p _. apply workingSDK_succeeds.
Defined.

(** A run with a repeated name: three sessions are allocated, at the
    addresses 0, 1 and 2, the map has two entries and ["staging"] maps to
    the session of its second occurrence. *)
Example CreateSessions_repeated_run :
  match CreateSessions "default" "v0.14.0" workingSDK repeatedProfilesCfg world0 with
  | Returned m w' =>
      size m = 2%nat
      /\ session.addr <$> (m !! "staging" ≫= id) = Some 2%nat
      /\ session.addr <$> (m !! "prod" ≫= id) = Some 1%nat
      /\ allocated w' = 3%nat
  | Exited _ _ => False
  end.
Proof. vm_compute. repeat split. Qed.

(** A run in which the second of three profiles fails to load: the first
    session has been built, the process exits, nothing is returned. *)
Example CreateSessions_broken_run :
  CreateSessions "default" "v0.14.0" brokenProfileSDK brokenProfilesCfg world0
  = Exited 1
      (mkWorld
         [mkEntry FatalLevel
            "instantiating AWS session: SharedConfigProfileNotExistsError: failed to get profile"]
         1).
Proof. reflexivity. Qed.

(** * Further properties of the builds *)

(** ** More on the path-label reducer *)

Lemma Split_no_sep_id (sep : ascii) (s : string) :
  GoStrings.ContainsByte s sep = false -> GoStrings.Split s sep = [s].
Proof.
  induction s as [|c s IH]; [done|]. simpl.
  destruct (Ascii.eqb c sep); [done|]. simpl. intros Hs.
  by rewrite (IH Hs).
Qed.

Lemma last_Split_suffix (sep : ascii) (a b : string) :
  last (GoStrings.Split (a +:+ String sep b) sep) = last (GoStrings.Split b sep).
Proof.
  rewrite Split_app, last_app.
  destruct (Split_last sep b) as (seg & -> & _). done.
Qed.

(** X1. The label depends only on what follows the last ["/"]: putting
    any prefix and a ["/"] in front of a path does not change its label.
    A path without ["/"] is its own label, so reducing a label again gives
    the same label. *)
Theorem X1_path_label_of_suffix :
  (forall a b,
      newSession_PathProcessor (a +:+ "/" +:+ b) = newSession_PathProcessor b
      /\ newV2Config_PathProcessor (a +:+ "/" +:+ b) = newV2Config_PathProcessor b)
  /\ (forall s,
        GoStrings.ContainsByte s slash = false ->
        newSession_PathProcessor s = Some s
        /\ newV2Config_PathProcessor s = Some s)
  /\ (forall path seg,
        newSession_PathProcessor path = Some seg ->
        newSession_PathProcessor seg = Some seg
        /\ newV2Config_PathProcessor seg = Some seg).
Proof.
  assert (forall s, GoStrings.ContainsByte s slash = false ->
                    newSession_PathProcessor s = Some s
                    /\ newV2Config_PathProcessor s = Some s) as Hid.
  { intros s Hs.
    rewrite ?newSession_PathProcessor_last, ?newV2Config_PathProcessor_last.
    by rewrite (Split_no_sep_id _ _ Hs). }
  split; [|split; [done|]].
  - intros a b. change (a +:+ "/" +:+ b) with (a +:+ String slash b).
    rewrite ?newSession_PathProcessor_last, ?newV2Config_PathProcessor_last.
    by rewrite last_Split_suffix.
  - intros path seg Hseg. apply Hid.
    rewrite newSession_PathProcessor_last in Hseg.
    destruct (Split_last slash path) as (seg' & Hlast & Hno & _).
    congruence.
Qed.

Section MoreBuild.

Variable Version : string.
Variable sdk : SDK.

(** X2. A successful [newSession] returns a session whose Build handlers
    are the SDK's own, in their order, followed by exactly one handler
    adding ["ExternalDNS"] and the version to the user agent. *)
Theorem X2_user_agent_handler_last (awsConfig : AWSSessionConfig) (w : World)
    (d : session.Defaults) :
  sessionDefaults sdk (sessionOptions awsConfig) = inl d ->
  exists s w',
    newSession Version sdk awsConfig w = ((Some s, None), w')
    /\ session.Handlers_Build s
       = session.defaultBuild d
         ++ [request.AddToUserAgentHandler "ExternalDNS" Version].
Proof.
  intros Hd. rewrite (newSession_ok _ _ _ _ _ Hd). by eexists _, _.
Qed.

(** X3. In [newV2Config] the STS client of the assume-role provider is
    made from the configuration as loaded, before the credentials are
    replaced: it works with the credentials the SDK resolved, and with the
    same retryer and HTTP client as the returned configuration. *)
Theorem X3_v2_sts_client_uses_loaded_config (awsConfig : AWSSessionConfig) (w : World)
    (d : v2Config) :
  AssumeRole awsConfig ≠ "" ->
  configDefaults sdk (loadOptions awsConfig) = inl d ->
  exists c w' o,
    newV2Config sdk awsConfig w = ((c, None), w')
    /\ awsv2.Credentials c
       = Some (stscredsv2.CredentialsCache (stscredsv2.AssumeRoleProvider o))
    /\ awsv2.Credentials (stscredsv2.Client o) = awsv2.Credentials d
    /\ awsv2.Retryer (stscredsv2.Client o) = awsv2.Retryer c
    /\ awsv2.HTTPClient (stscredsv2.Client o) = awsv2.HTTPClient c.
Proof.
  intros Hrole%String.eqb_neq Hd.
  rewrite (newV2Config_ok _ _ _ _ Hd). unfold builtConfig. rewrite Hrole.
  by eexists _, _, _.
Qed.

(** X4. In [newSession] the STS client of the assume-role provider is made
    from the session before its credentials are replaced: it works with
    the credentials the SDK resolved, and with the retry limit and the
    HTTP client of the returned session. *)
Theorem X4_legacy_sts_client_uses_loaded_session (awsConfig : AWSSessionConfig)
    (w : World) (d : session.Defaults) :
  AssumeRole awsConfig ≠ "" ->
  sessionDefaults sdk (sessionOptions awsConfig) = inl d ->
  exists s w' p,
    newSession Version sdk awsConfig w = ((Some s, None), w')
    /\ aws.Credentials (session.Config s) = Some (credentials.NewCredentials p)
    /\ aws.Credentials (stscreds.Client p) = aws.Credentials (session.defaultConfig d)
    /\ aws.MaxRetries (stscreds.Client p) = aws.MaxRetries (session.Config s)
    /\ aws.HTTPClient (stscreds.Client p) = aws.HTTPClient (session.Config s).
Proof.
  intros Hrole%String.eqb_neq Hd.
  rewrite (newSession_ok _ _ _ _ _ Hd). unfold builtSession. rewrite Hrole.
  by eexists _, _, _.
Qed.

(** X5. Without a role to assume the external ID plays no part: two
    configurations with an empty [AssumeRole] that differ only in
    [AssumeRoleExternalID] give the same result and the same log, on both
    build paths and whether the SDK loader succeeds or fails. *)
Theorem X5_external_id_ignored_without_role
    (externalID externalID' : string) (retries : Z) (profile : string) (w : World) :
  newSession Version sdk (mkAWSSessionConfig "" externalID retries profile) w
  = newSession Version sdk (mkAWSSessionConfig "" externalID' retries profile) w
  /\ newV2Config sdk (mkAWSSessionConfig "" externalID retries profile) w
     = newV2Config sdk (mkAWSSessionConfig "" externalID' retries profile) w.
Proof.
  split.
  - destruct (sessionDefaults sdk
                (sessionOptions (mkAWSSessionConfig "" externalID retries profile)))
      as [d|err] eqn:Hd.
    + rewrite (newSession_ok _ _ (mkAWSSessionConfig "" externalID retries profile) _ _ Hd).
      by rewrite (newSession_ok _ _ (mkAWSSessionConfig "" externalID' retries profile)
                    _ _ Hd).
    + rewrite (newSession_err _ _ (mkAWSSessionConfig "" externalID retries profile) _ _ Hd).
      by rewrite (newSession_err _ _ (mkAWSSessionConfig "" externalID' retries profile)
                    _ _ Hd).
  - destruct (configDefaults sdk
                (loadOptions (mkAWSSessionConfig "" externalID retries profile)))
      as [d|err] eqn:Hd.
    + rewrite (newV2Config_ok _ (mkAWSSessionConfig "" externalID retries profile) _ _ Hd).
      by rewrite (newV2Config_ok _ (mkAWSSessionConfig "" externalID' retries profile)
                    _ _ Hd).
    + rewrite (newV2Config_err _ (mkAWSSessionConfig "" externalID retries profile) _ _ Hd).
      by rewrite (newV2Config_err _ (mkAWSSessionConfig "" externalID' retries profile)
                    _ _ Hd).
Qed.

(** X6. Whether a build fails, and with which error, does not depend on
    the role settings: the SDK loader runs before any of them is looked
    at.  Two configurations with the same retry count and profile return
    the same error value (or both none), on both build paths. *)
Theorem X6_failure_independent_of_role
    (role externalID role' externalID' : string) (retries : Z) (profile : string)
    (w : World) :
  snd (fst (newSession Version sdk
              (mkAWSSessionConfig role externalID retries profile) w))
  = snd (fst (newSession Version sdk
                (mkAWSSessionConfig role' externalID' retries profile) w))
  /\ snd (fst (newV2Config sdk
                 (mkAWSSessionConfig role externalID retries profile) w))
     = snd (fst (newV2Config sdk
                   (mkAWSSessionConfig role' externalID' retries profile) w)).
Proof.
  split.
  - destruct (sessionDefaults sdk
                (sessionOptions (mkAWSSessionConfig role externalID retries profile)))
      as [d|err] eqn:Hd.
    + rewrite (newSession_ok _ _ (mkAWSSessionConfig role externalID retries profile)
                 _ _ Hd).
      by rewrite (newSession_ok _ _ (mkAWSSessionConfig role' externalID' retries profile)
                    _ _ Hd).
    + rewrite (newSession_err _ _ (mkAWSSessionConfig role externalID retries profile)
                 _ _ Hd).
      by rewrite (newSession_err _ _
                    (mkAWSSessionConfig role' externalID' retries profile) _ _ Hd).
  - destruct (configDefaults sdk
                (loadOptions (mkAWSSessionConfig role externalID retries profile)))
      as [d|err] eqn:Hd.
    + rewrite (newV2Config_ok _ (mkAWSSessionConfig role externalID retries profile)
                 _ _ Hd).
      by rewrite (newV2Config_ok _ (mkAWSSessionConfig role' externalID' retries profile)
                    _ _ Hd).
    + rewrite (newV2Config_err _ (mkAWSSessionConfig role externalID retries profile)
                 _ _ Hd).
      by rewrite (newV2Config_err _
                    (mkAWSSessionConfig role' externalID' retries profile) _ _ Hd).
Qed.

End MoreBuild.

(** ** More on [CreateSessions] *)

Lemma after_nil_0 (w : World) : after w [] 0 = w.
Proof. destruct w as [l n]. unfold after. simpl. by rewrite app_nil_r, Nat.add_0_r. Qed.

Lemma after_after (w : World) (l1 l2 : list Entry) (n1 n2 : nat) :
  after (after w l1 n1) l2 n2 = after w (l1 ++ l2) (n1 + n2).
Proof. unfold after. simpl. f_equal; [by rewrite app_assoc | lia]. Qed.

Lemma last_occurrence {A : Type} `{EqDecision A} (x : A) (l : list A) :
  x ∈ l ->
  exists i, l !! i = Some x /\ forall j, (i < j)%nat -> l !! j ≠ Some x.
Proof.
  induction l as [|y l IH]; [by intros ?%elem_of_nil|].
  intros Hin. destruct (decide (x ∈ l)) as [Hl|Hl].
  - destruct (IH Hl) as (i & Hi & Hafter). exists (S i). split; [done|].
    intros [|j] Hj; [lia|]. simpl. apply Hafter. lia.
  - apply elem_of_cons in Hin as [->|?]; [|done].
    exists 0%nat. split; [done|].
    intros [|j] Hj; [lia|]. simpl. intros Hx. apply Hl.
    apply list_elem_of_lookup. eauto.
Qed.

Section MoreSessions.

Variable defaultAWSProfile : string.
Variable Version : string.
Variable sdk : SDK.
Variable cfg : externaldns.Config.

Lemma all_succeed_or_fail (profiles : list string) :
  (forall p, p ∈ profiles -> succeeds sdk cfg p)
  \/ (exists p err,
        p ∈ profiles
        /\ sessionDefaults sdk (sessionOptions (sessionConfigFor cfg p)) = inr err).
Proof.
  induction profiles as [|q qs [IH|(p & err & Hin & Hp)]].
  - left. by intros p ?%elem_of_nil.
  - destruct (sessionDefaults sdk (sessionOptions (sessionConfigFor cfg q)))
      as [d|err] eqn:Hq.
    + left. intros p [->|?]%elem_of_cons; [by exists d | by apply IH].
    + right. exists q, err. split; [set_solver | done].
  - right. exists p, err. split; [set_solver | done].
Qed.

(** The world a returning loop leaves: one allocation and one
    role-assumption log per visited profile. *)
Lemma CreateSessions_range_world (profiles : list string) :
  forall result w m w',
    CreateSessions_range Version sdk cfg profiles result w = Returned m w' ->
    w' = after w (roleLogs cfg (List.length profiles)) (List.length profiles).
Proof.
  induction profiles as [|q qs IH]; intros result w m w' Hrun.
  - simpl in Hrun. injection Hrun as _ <-. by rewrite after_nil_0.
  - cbn [CreateSessions_range] in Hrun.
    change (mkAWSSessionConfig _ _ _ q) with (sessionConfigFor cfg q) in Hrun.
    destruct (sessionDefaults sdk (sessionOptions (sessionConfigFor cfg q)))
      as [d|err] eqn:Hq.
    + rewrite (newSession_ok _ _ _ _ _ Hq) in Hrun.
      apply IH in Hrun as ->. rewrite after_after. reflexivity.
    + rewrite (newSession_err _ _ _ _ _ Hq) in Hrun. discriminate.
Qed.

(** The loop stops at the first profile whose build fails. *)
Lemma CreateSessions_range_first_fail (pre : list string) :
  forall (p : string) (post : list string) (err : error) result w,
    (forall q, q ∈ pre -> succeeds sdk cfg q) ->
    sessionDefaults sdk (sessionOptions (sessionConfigFor cfg p)) = inr err ->
    CreateSessions_range Version sdk cfg (pre ++ p :: post) result w
    = Exited 1
        (mkWorld
           (logs w ++ roleLogs cfg (List.length pre)
            ++ [mkEntry FatalLevel ("instantiating AWS session: " +:+ Error err)])
           (allocated w + List.length pre)).
Proof.
  induction pre as [|q qs IH]; intros p post err result w Hpre Hp.
  - cbn [app CreateSessions_range].
    change (mkAWSSessionConfig _ _ _ p) with (sessionConfigFor cfg p).
    rewrite (newSession_err _ _ _ _ _ Hp). unfold logrus.Fatal. simpl.
    by rewrite Nat.add_0_r.
  - destruct (Hpre q) as [d Hq]; [set_solver|].
    cbn [app CreateSessions_range].
    change (mkAWSSessionConfig _ _ _ q) with (sessionConfigFor cfg q).
    rewrite (newSession_ok _ _ _ _ _ Hq).
    rewrite (IH p post err); [|set_solver|done].
    unfold after, roleLogs. simpl. f_equal. f_equal; [|lia].
    by rewrite <- !app_assoc.
Qed.

(** What a returned map holds: every entry is the session built for the
    last occurrence of a requested profile, filed under the profile's name
    when profiles are configured and under the default key when none is. *)
Lemma CreateSessions_entry (w : World) m w' (k : string) v :
  CreateSessions defaultAWSProfile Version sdk cfg w = Returned m w' ->
  m !! k = Some v ->
  exists i p d,
    requestedProfiles cfg !! i = Some p
    /\ (forall j, (i < j)%nat -> requestedProfiles cfg !! j ≠ Some p)
    /\ sessionDefaults sdk (sessionOptions (sessionConfigFor cfg p)) = inl d
    /\ v = Some (builtSession Version (sessionConfigFor cfg p) (allocated w + i) d)
    /\ ((externaldns.AWSProfiles cfg ≠ [] /\ externaldns.AWSProfiles cfg ≠ [""]
         /\ k = p)
        \/ ((externaldns.AWSProfiles cfg = [] \/ externaldns.AWSProfiles cfg = [""])
            /\ k = defaultAWSProfile)).
Proof.
  intros Hret Hk.
  destruct (decide (externaldns.AWSProfiles cfg = [])) as [Hnil|Hnil];
    [|destruct (decide (externaldns.AWSProfiles cfg = [""])) as [Hone|Hone]].
  1,2: assert (externaldns.AWSProfiles cfg = [] \/ externaldns.AWSProfiles cfg = [""])
         as Hno by tauto;
       rewrite (CreateSessions_no_profiles _ _ _ _ _ Hno) in Hret;
       rewrite (requestedProfiles_no_profiles _ Hno);
       destruct (sessionDefaults sdk (sessionOptions (sessionConfigFor cfg "")))
         as [d|err] eqn:Hd;
       [ rewrite (newSession_ok _ _ _ _ _ Hd) in Hret
       | rewrite (newSession_err _ _ _ _ _ Hd) in Hret; discriminate ];
       injection Hret as <- <-;
       apply lookup_singleton_Some in Hk as [<- <-];
       exists 0%nat, "", d; split; [done|];
       split; [intros [|j] ?; [lia | done]|]; split; [done|];
       split; [by rewrite Nat.add_0_r | by right].
  rewrite (CreateSessions_profiles _ _ _ _ _ Hnil Hone) in Hret.
  rewrite (requestedProfiles_profiles _ Hnil).
  destruct (all_succeed_or_fail (externaldns.AWSProfiles cfg))
    as [Hall|(p & err & Hin & Hp)].
  - destruct (CreateSessions_range_ok Version sdk cfg _ ∅ w Hall)
      as (m0 & w0 & Hrun & _ & Hdom & _ & Hlast).
    assert (m0 = m) as -> by congruence.
    assert (k ∈ externaldns.AWSProfiles cfg) as Hin.
    { assert (k ∈ dom m) as Hkd by (apply elem_of_dom; eauto).
      rewrite Hdom in Hkd. set_solver. }
    destruct (last_occurrence k _ Hin) as (i & Hi & Hafter).
    destruct (Hlast i k Hi Hafter) as (d & Hd & Hm).
    exists i, k, d. split; [done|]. split; [done|]. split; [done|].
    split; [congruence | by left].
  - destruct (CreateSessions_range_fail Version sdk cfg _ ∅ w p err Hin Hp)
      as (? & ? & ? & _ & _ & Hex & _).
    congruence.
Qed.

End MoreSessions.

Section MoreClaims.

Variable defaultAWSProfile : string.
Variable Version : string.
Variable sdk : SDK.

(** X7. The two default entry points never hand back an unusable handle:
    [CreateDefaultSession] either returns a non-nil session or ends the
    process with status 1; [CreateDefaultV2Config] either returns a
    configuration that has a retryer and an HTTP client (so never the
    zero configuration of the error path) or ends the process with
    status 1. *)
Theorem X7_default_entry_points_handle_or_exit (cfg : externaldns.Config) (w : World) :
  ((exists s w', CreateDefaultSession Version sdk cfg w = Returned (Some s) w')
   \/ (exists w', CreateDefaultSession Version sdk cfg w = Exited 1 w'))
  /\ ((exists c w' r h,
         CreateDefaultV2Config sdk cfg w = Returned c w'
         /\ awsv2.Retryer c = Some r
         /\ awsv2.HTTPClient c = Some h)
      \/ (exists w', CreateDefaultV2Config sdk cfg w = Exited 1 w')).
Proof.
  split.
  - unfold CreateDefaultSession.
    change (mkAWSSessionConfig _ _ _ "") with (sessionConfigFor cfg "").
    destruct (sessionDefaults sdk (sessionOptions (sessionConfigFor cfg "")))
      as [d|err] eqn:Hd.
    + left. rewrite (newSession_ok _ _ _ _ _ Hd). by eexists _, _.
    + right. rewrite (newSession_err _ _ _ _ _ Hd). by eexists.
  - unfold CreateDefaultV2Config.
    change (mkAWSSessionConfig _ _ _ "") with (sessionConfigFor cfg "").
    destruct (configDefaults sdk (loadOptions (sessionConfigFor cfg "")))
      as [d|err] eqn:Hd.
    + left. rewrite (newV2Config_ok _ _ _ _ Hd). unfold builtConfig.
      destruct (String.eqb (AssumeRole (sessionConfigFor cfg "")) "");
        by eexists _, _, _, _.
    + right. rewrite (newV2Config_err _ _ _ _ Hd). by eexists.
Qed.

(** X8. [CreateSessions] has two outcomes only.  Either it ends the
    process with status 1, the last line logged being at fatal level and
    carrying the prefix of a failed session build; or it returns a map
    that is not empty and holds no nil session. *)
Theorem X8_CreateSessions_map_or_exit (cfg : externaldns.Config) (w : World) :
  (exists w' msg,
      CreateSessions defaultAWSProfile Version sdk cfg w = Exited 1 w'
      /\ last (logs w')
         = Some (mkEntry FatalLevel ("instantiating AWS session: " +:+ msg)))
  \/ (exists m w',
        CreateSessions defaultAWSProfile Version sdk cfg w = Returned m w'
        /\ (0 < size m)%nat
        /\ forall k v, m !! k = Some v -> exists s, v = Some s).
Proof.
  destruct (CreateSessions defaultAWSProfile Version sdk cfg w) as [m w'|code w'] eqn:Hrun.
  - right. exists m, w'. split; [done|]. split.
    + destruct (decide (externaldns.AWSProfiles cfg = [])) as [Hnil|Hnil];
        [|destruct (decide (externaldns.AWSProfiles cfg = [""])) as [Hone|Hone]].
      1,2: assert (externaldns.AWSProfiles cfg = []
                   \/ externaldns.AWSProfiles cfg = [""]) as Hno by tauto;
           rewrite (CreateSessions_no_profiles _ _ _ _ _ Hno) in Hrun;
           destruct (newSession _ _ _ _) as [[session [err|]] w0];
           [discriminate|]; injection Hrun as <- <-;
           rewrite map_size_singleton; lia.
      rewrite (CreateSessions_profiles _ _ _ _ _ Hnil Hone) in Hrun.
      destruct (externaldns.AWSProfiles cfg) as [|p ps] eqn:Hps; [done|].
      destruct (all_succeed_or_fail sdk cfg (p :: ps)) as [Hall|(q & err & Hin & Hq)].
      * destruct (CreateSessions_range_ok Version sdk cfg _ ∅ w Hall)
          as (m0 & w0 & Hrun0 & _ & Hdom & _).
        assert (m0 = m) as -> by congruence.
        assert (p ∈ dom m) as [v Hv]%elem_of_dom by (rewrite Hdom; set_solver).
        pose proof (map_size_ne_0_lookup_2 m p (ltac:(eauto))). lia.
      * destruct (CreateSessions_range_fail Version sdk cfg _ ∅ w q err Hin Hq)
          as (? & ? & ? & _ & _ & Hex & _).
        congruence.
    + intros k v Hk.
      destruct (CreateSessions_entry _ _ _ _ _ _ _ _ _ Hrun Hk)
        as (i & p & d & _ & _ & _ & -> & _).
      by eexists.
  - left.
    destruct (all_succeed_or_fail sdk cfg (requestedProfiles cfg))
      as [Hall|(q & err & Hin & Hq)].
    + exfalso.
      destruct (decide (externaldns.AWSProfiles cfg = [])) as [Hnil|Hnil];
        [|destruct (decide (externaldns.AWSProfiles cfg = [""])) as [Hone|Hone]].
      1,2: assert (externaldns.AWSProfiles cfg = []
                   \/ externaldns.AWSProfiles cfg = [""]) as Hno by tauto;
           rewrite (requestedProfiles_no_profiles _ Hno) in Hall;
           destruct (Hall "") as [d Hd]; [set_solver|];
           rewrite (CreateSessions_no_profiles _ _ _ _ _ Hno) in Hrun;
           rewrite (newSession_ok _ _ _ _ _ Hd) in Hrun; discriminate.
      rewrite (requestedProfiles_profiles _ Hnil) in Hall.
      rewrite (CreateSessions_profiles _ _ _ _ _ Hnil Hone) in Hrun.
      destruct (CreateSessions_range_ok Version sdk cfg _ ∅ w Hall)
        as (m0 & w0 & Hrun0 & _).
      congruence.
    + destruct (CreateSessions_fail defaultAWSProfile Version sdk cfg w q err Hin Hq)
        as (p0 & err0 & w0 & _ & _ & Hex & Hlog).
      rewrite Hrun in Hex. injection Hex as -> ->.
      by exists w0, (Error err0).
Qed.

(** X9. With profiles configured, [CreateSessions] stops at the first
    profile whose build fails: the sessions of the profiles before it have
    been built (one allocation and one role-assumption log each), the
    wrapped error of that profile is the last line logged, at fatal level,
    and the profiles after it are never looked at. *)
Theorem X9_CreateSessions_stops_at_first_failure
    (cfg : externaldns.Config) (w : World)
    (pre : list string) (p : string) (post : list string) (err : error) :
  externaldns.AWSProfiles cfg = pre ++ p :: post ->
  externaldns.AWSProfiles cfg ≠ [""] ->
  (forall q, q ∈ pre -> succeeds sdk cfg q) ->
  sessionDefaults sdk (sessionOptions (sessionConfigFor cfg p)) = inr err ->
  CreateSessions defaultAWSProfile Version sdk cfg w
  = Exited 1
      (mkWorld
         (logs w ++ roleLogs cfg (List.length pre)
          ++ [mkEntry FatalLevel ("instantiating AWS session: " +:+ Error err)])
         (allocated w + List.length pre)).
Proof.
  intros Hsplit Hone Hpre Hp.
  rewrite CreateSessions_profiles; [|rewrite Hsplit; by destruct pre|done].
  rewrite Hsplit. by apply CreateSessions_range_first_fail.
Qed.

Lemma CreateSessions_returned_world
    (cfg : externaldns.Config) (w : World)
    (m : gmap string (option session.Session)) (w' : World) :
  CreateSessions defaultAWSProfile Version sdk cfg w = Returned m w' ->
  w' = after w (roleLogs cfg (List.length (requestedProfiles cfg)))
         (List.length (requestedProfiles cfg)).
Proof.
  intros Hrun.
  destruct (decide (externaldns.AWSProfiles cfg = [])) as [Hnil|Hnil];
    [|destruct (decide (externaldns.AWSProfiles cfg = [""])) as [Hone|Hone]].
  1,2: assert (externaldns.AWSProfiles cfg = [] \/ externaldns.AWSProfiles cfg = [""])
         as Hno by tauto;
       rewrite (CreateSessions_no_profiles _ _ _ _ _ Hno) in Hrun;
       rewrite (requestedProfiles_no_profiles _ Hno);
       destruct (sessionDefaults sdk (sessionOptions (sessionConfigFor cfg "")))
         as [d|err] eqn:Hd;
       [ rewrite (newSession_ok _ _ _ _ _ Hd) in Hrun
       | rewrite (newSession_err _ _ _ _ _ Hd) in Hrun; discriminate ];
       injection Hrun as _ <-; unfold roleLogs; simpl;
       by rewrite app_nil_r.
  rewrite (CreateSessions_profiles _ _ _ _ _ Hnil Hone) in Hrun.
  rewrite (requestedProfiles_profiles _ Hnil).
  by rewrite (CreateSessions_range_world _ _ _ _ _ _ _ _ Hrun).
Qed.

(** X10. When [CreateSessions] returns, it has built exactly one session
    per requested profile (one for the default profile when none is
    configured) and has logged the role-assumption line once per build and
    nothing else. *)
Theorem X10_CreateSessions_effects_on_return
    (cfg : externaldns.Config) (w : World)
    (m : gmap string (option session.Session)) (w' : World) :
  CreateSessions defaultAWSProfile Version sdk cfg w = Returned m w' ->
  allocated w' = (allocated w + List.length (requestedProfiles cfg))%nat
  /\ logs w' = logs w ++ roleLogs cfg (List.length (requestedProfiles cfg)).
Proof.
  intros Hrun. by rewrite (CreateSessions_returned_world _ _ _ _ Hrun).
Qed.

(** X11. The sessions of a returned map are new and pairwise different:
    each was allocated during the call, and two different keys never hold
    the same session. *)
Theorem X11_CreateSessions_sessions_fresh_and_distinct
    (cfg : externaldns.Config) (w : World)
    (m : gmap string (option session.Session)) (w' : World) :
  CreateSessions defaultAWSProfile Version sdk cfg w = Returned m w' ->
  (forall k s,
      m !! k = Some (Some s) ->
      (allocated w <= session.addr s < allocated w')%nat)
  /\ (forall k1 k2 s1 s2,
        m !! k1 = Some (Some s1) ->
        m !! k2 = Some (Some s2) ->
        session.addr s1 = session.addr s2 ->
        k1 = k2).
Proof.
  intros Hrun. split.
  - intros k s Hk.
    pose proof (CreateSessions_returned_world _ _ _ _ Hrun) as ->.
    destruct (CreateSessions_entry _ _ _ _ _ _ _ _ _ Hrun Hk)
      as (i & p & d & Hi & _ & _ & Hs & _).
    injection Hs as ->. simpl. apply lookup_lt_Some in Hi. lia.
  - intros k1 k2 s1 s2 Hk1 Hk2 Haddr.
    destruct (CreateSessions_entry _ _ _ _ _ _ _ _ _ Hrun Hk1)
      as (i1 & p1 & d1 & Hi1 & _ & _ & Hs1 & Hkey1).
    destruct (CreateSessions_entry _ _ _ _ _ _ _ _ _ Hrun Hk2)
      as (i2 & p2 & d2 & Hi2 & _ & _ & Hs2 & Hkey2).
    injection Hs1 as ->. injection Hs2 as ->. simpl in Haddr.
    assert (i1 = i2) as -> by lia.
    assert (p1 = p2) as -> by congruence.
    destruct Hkey1 as [(Hnil1 & Hone1 & ->)|[Hno1 ->]],
             Hkey2 as [(Hnil2 & Hone2 & ->)|[Hno2 ->]];
      try done; tauto.
Qed.

(** X12. Every session of a returned map carries the process
    configuration: its retry limit is [AWSAPIRetries], its HTTP client is
    the instrumented client with the path reducer, its last Build handler
    is the user-agent handler, and when [AWSAssumeRole] is set its
    credentials assume that role with the configured external ID. *)
Theorem X12_CreateSessions_every_session_configured
    (cfg : externaldns.Config) (w : World)
    (m : gmap string (option session.Session)) (w' : World)
    (k : string) (s : session.Session) :
  CreateSessions defaultAWSProfile Version sdk cfg w = Returned m w' ->
  m !! k = Some (Some s) ->
  aws.MaxRetries (session.Config s) = Some (externaldns.AWSAPIRetries cfg)
  /\ aws.HTTPClient (session.Config s)
     = Some (instrumented None (mkCallbacks newSession_PathProcessor))
  /\ last (session.Handlers_Build s)
     = Some (request.AddToUserAgentHandler "ExternalDNS" Version)
  /\ (externaldns.AWSAssumeRole cfg ≠ "" ->
      exists p,
        aws.Credentials (session.Config s) = Some (credentials.NewCredentials p)
        /\ stscreds.RoleARN p = externaldns.AWSAssumeRole cfg
        /\ stscreds.ExternalID p
           = if String.eqb (externaldns.AWSAssumeRoleExternalID cfg) "" then None
             else Some (externaldns.AWSAssumeRoleExternalID cfg)).
Proof.
  intros Hrun Hk.
  destruct (CreateSessions_entry _ _ _ _ _ _ _ _ _ Hrun Hk)
    as (i & p & d & _ & _ & _ & Hs & _).
  injection Hs as ->. unfold builtSession. cbn [session.Config session.Handlers_Build].
  rewrite last_snoc.
  change (AssumeRole (sessionConfigFor cfg p)) with (externaldns.AWSAssumeRole cfg).
  destruct (String.eqb_spec (externaldns.AWSAssumeRole cfg) "") as [Hrole|Hrole].
  - repeat split; done.
  - repeat split; try done. intros _. by eexists.
Qed.

End MoreClaims.

(** ** The further properties at concrete configurations *)

Lemma twoProfiles_run :
  CreateSessions "default" "v0.14.0" workingSDK twoProfilesCfg world0
  = Returned twoProfilesMap twoProfilesWorld.
Proof. reflexivity. Defined.

Lemma X1_witness :
  newSession_PathProcessor "rrset" = Some "rrset"
  /\ newV2Config_PathProcessor "rrset" = Some "rrset".
Proof.
  destruct X1_path_label_of_suffix as (_ & Hid & _).
  apply Hid. reflexivity.
Defined.

Lemma X2_witness :
  exists s w',
    newSession "v0.14.0" workingSDK plainConfig world0 = ((Some s, None), w')
    /\ session.Handlers_Build s
       = [request.sdkHandler "core.SDKVersionUserAgentHandler";
          request.AddToUserAgentHandler "ExternalDNS" "v0.14.0"].
Proof.
  apply (X2_user_agent_handler_last "v0.14.0" workingSDK plainConfig world0
           exampleDefaults).
  reflexivity.
Defined.

Lemma X3_witness :
  exists c w' o,
    newV2Config workingSDK roleConfig world0 = ((c, None), w')
    /\ awsv2.Credentials c
       = Some (stscredsv2.CredentialsCache (stscredsv2.AssumeRoleProvider o))
    /\ awsv2.Credentials (stscredsv2.Client o)
       = Some (stscredsv2.sdkResolved "SharedConfigCredentials")
    /\ awsv2.Retryer (stscredsv2.Client o) = awsv2.Retryer c
    /\ awsv2.HTTPClient (stscredsv2.Client o) = awsv2.HTTPClient c.
Proof.
  apply (X3_v2_sts_client_uses_loaded_config workingSDK roleConfig world0
           exampleV2Defaults).
  - discriminate.
  - reflexivity.
Defined.

Lemma X4_witness :
  exists s w' p,
    newSession "v0.14.0" workingSDK roleConfig world0 = ((Some s, None), w')
    /\ aws.Credentials (session.Config s) = Some (credentials.NewCredentials p)
    /\ aws.Credentials (stscreds.Client p)
       = Some (credentials.sdkResolved "SharedCredentialsProvider")
    /\ aws.MaxRetries (stscreds.Client p) = aws.MaxRetries (session.Config s)
    /\ aws.HTTPClient (stscreds.Client p) = aws.HTTPClient (session.Config s).
Proof.
  apply (X4_legacy_sts_client_uses_loaded_session "v0.14.0" workingSDK roleConfig
           world0 exampleDefaults).
  - discriminate.
  - reflexivity.
Defined.

Lemma X9_witness :
  CreateSessions "default" "v0.14.0" brokenProfileSDK brokenProfilesCfg world0
  = Exited 1
      (mkWorld
         (logs world0 ++ roleLogs brokenProfilesCfg 1
          ++ [mkEntry FatalLevel ("instantiating AWS session: " +:+ Error loadError)])
         (allocated world0 + 1)).
Proof.
  apply (X9_CreateSessions_stops_at_first_failure "default" "v0.14.0" brokenProfileSDK
           brokenProfilesCfg world0 ["staging"] "broken" ["prod"] loadError).
  - reflexivity.
  - discriminate.
  - intros q ->%list_elem_of_singleton. exists exampleDefaults. reflexivity.
  - reflexivity.
Defined.

Lemma X10_witness :
  allocated twoProfilesWorld = 2%nat
  /\ logs twoProfilesWorld = logs world0 ++ roleLogs twoProfilesCfg 2.
Proof.
  apply (X10_CreateSessions_effects_on_return "default" "v0.14.0" workingSDK
           twoProfilesCfg world0 twoProfilesMap twoProfilesWorld).
  apply twoProfiles_run.
Defined.

Lemma X11_witness :
  (forall k s,
      twoProfilesMap !! k = Some (Some s) ->
      (allocated world0 <= session.addr s < allocated twoProfilesWorld)%nat)
  /\ (forall k1 k2 s1 s2,
        twoProfilesMap !! k1 = Some (Some s1) ->
        twoProfilesMap !! k2 = Some (Some s2) ->
        session.addr s1 = session.addr s2 ->
        k1 = k2).
Proof.
  apply (X11_CreateSessions_sessions_fresh_and_distinct "default" "v0.14.0" workingSDK
           twoProfilesCfg world0 twoProfilesMap twoProfilesWorld).
  apply twoProfiles_run.
Defined.

Lemma X12_witness :
  aws.MaxRetries
    (session.Config
       (builtSession "v0.14.0" (sessionConfigFor twoProfilesCfg "prod") 1 exampleDefaults))
  = Some 3%Z
  /\ aws.HTTPClient
       (session.Config
          (builtSession "v0.14.0" (sessionConfigFor twoProfilesCfg "prod") 1
             exampleDefaults))
     = Some (instrumented None (mkCallbacks newSession_PathProcessor))
  /\ last (session.Handlers_Build
             (builtSession "v0.14.0" (sessionConfigFor twoProfilesCfg "prod") 1
                exampleDefaults))
     = Some (request.AddToUserAgentHandler "ExternalDNS" "v0.14.0")
  /\ (externaldns.AWSAssumeRole twoProfilesCfg ≠ "" ->
      exists p,
        aws.Credentials
          (session.Config
             (builtSession "v0.14.0" (sessionConfigFor twoProfilesCfg "prod") 1
                exampleDefaults))
        = Some (credentials.NewCredentials p)
        /\ stscreds.RoleARN p = externaldns.AWSAssumeRole twoProfilesCfg
        /\ stscreds.ExternalID p
           = if String.eqb (externaldns.AWSAssumeRoleExternalID twoProfilesCfg) ""
             then None
             else Some (externaldns.AWSAssumeRoleExternalID twoProfilesCfg)).
Proof.
  apply (X12_CreateSessions_every_session_configured "default" "v0.14.0" workingSDK
           twoProfilesCfg world0 twoProfilesMap twoProfilesWorld "prod").
  - apply twoProfiles_run.
  - reflexivity.
Defined.
